(** * Browser platform adapter of the JS client SDK: model and properties

    The development embeds the two source files of the repository:

    - [browserPlatform] (the platform builder, [makeBrowserPlatform] and the
      closures it installs on the descriptor it returns);
    - [index] (the initialization shim: readiness signal, hidden-page flush).

    JavaScript values are a small untyped universe with truthiness, property
    lookup and strict equality.  Code that may throw returns a [completion];
    code that mutates the descriptor or a closure variable threads a [store]. *)

From Stdlib Require Import ZArith List String Bool Lia DecimalString.
Import ListNotations.
Open Scope string_scope.
Set Warnings "-register-all".

(** ** JavaScript values *)
Module JS.

Inductive exn :=
| ReferenceError (name : string)
| TypeError (what : string)
| HostError (what : string).

Inductive completion (A : Type) :=
| Ret (a : A)
| Throw (e : exn).
Arguments Ret {A} a.
Arguments Throw {A} e.

(** The eventual outcome of a promise. *)
Inductive settlement (A : Type) :=
| Pending
| Fulfilled (v : A)
| Rejected (reason : A).
Arguments Pending {A}.
Arguments Fulfilled {A} v.
Arguments Rejected {A} reason.

(** Numbers are the integral ones: the sources only compare a number with the
    literal 1 and produce 0 or 1.  A function value carries the completion of
    the call under study (host functions are opaque to the adapter: they
    ignore their arguments) and its own static properties. *)
Inductive value :=
| VUndefined
| VNull
| VBool (b : bool)
| VNum (n : Z)
| VStr (s : string)
| VError (e : exn)
| VObject (props : list (string * value))
| VFunction (outcome : completion value) (props : list (string * value))
| VPromise (s : settlement value).

Definition bind {A B} (c : completion A) (k : A -> completion B) : completion B :=
  match c with
  | Ret a => k a
  | Throw e => Throw e
  end.

Notation "x <- c ;; k" := (bind c (fun x => k))
  (at level 61, c at next level, right associativity).

Definition truthy (v : value) : bool :=
  match v with
  | VUndefined | VNull => false
  | VBool b => b
  | VNum n => negb (n =? 0)%Z
  | VStr s => negb (s =? "")
  | VError _ | VObject _ | VFunction _ _ | VPromise _ => true
  end.

(** [a === b] with a primitive on one side; an object operand is identified by
    reference in JavaScript and never equals a primitive. *)
Definition strict_equal (a b : value) : bool :=
  match a, b with
  | VUndefined, VUndefined => true
  | VNull, VNull => true
  | VBool x, VBool y => Bool.eqb x y
  | VNum x, VNum y => (x =? y)%Z
  | VStr x, VStr y => (x =? y)
  | _, _ => false
  end.

Fixpoint lookup {A} (k : string) (l : list (string * A)) : option A :=
  match l with
  | [] => None
  | (k', a) :: l' => if k' =? k then Some a else lookup k l'
  end.

(** [o.k]: a missing property reads as [undefined]; reading a property of
    [undefined] or [null] is a TypeError. *)
Definition get_prop (o : value) (k : string) : completion value :=
  match o with
  | VUndefined | VNull => Throw (TypeError ("cannot read " ++ k))
  | VObject props | VFunction _ props =>
      Ret (match lookup k props with Some v => v | None => VUndefined end)
  | _ => Ret VUndefined
  end.

(** [f(...)] *)
Definition call (f : value) : completion value :=
  match f with
  | VFunction outcome _ => outcome
  | _ => Throw (TypeError "not a function")
  end.

Definition is_object (v : value) : bool :=
  match v with
  | VError _ | VObject _ | VFunction _ _ | VPromise _ => true
  | _ => false
  end.

(** [new F(...)]: a constructor that returns a primitive yields the fresh
    instance. *)
Definition construct (f : value) : completion value :=
  match f with
  | VFunction outcome _ =>
      r <- outcome ;;
      Ret (if is_object r then r else VObject [])
  | _ => Throw (TypeError "not a constructor")
  end.

(** [k in o] *)
Definition has_property (k : string) (o : value) : completion bool :=
  match o with
  | VObject props | VFunction _ props =>
      Ret (match lookup k props with Some _ => true | None => false end)
  | VError _ | VPromise _ => Ret false
  | _ => Throw (TypeError "right-hand side of in is not an object")
  end.

(** [a && b], where evaluating [b] may throw. *)
Definition and_then (a : value) (b : completion value) : completion value :=
  if truthy a then b else Ret a.

(** What a promise comes to when it is resolved with the completion [r]
    (the argument of [resolve], or what a [then] or [catch] callback returned
    or threw).  A promise is adopted.  Any other object with a callable
    [then] is followed: its [then] is called with the resolving functions,
    and since a function value of this model ignores its arguments, the
    promise is rejected when that call throws and stays pending otherwise.
    Every other value fulfils the promise. *)
Definition settle (r : completion value) : settlement value :=
  match r with
  | Ret (VPromise s) => s
  | Ret v =>
      match get_prop v "then" with
      | Ret (VFunction (Throw e) _) => Rejected (VError e)
      | Ret (VFunction (Ret _) _) => Pending
      | _ => Fulfilled v
      end
  | Throw e => Rejected (VError e)
  end.

(** [o.k(...)]: the method [k] of [o] is looked up and called. *)
Definition call_method (o : value) (k : string) : completion value :=
  f <- get_prop o k ;; call f.

(** [p.then(cb)].  On a promise, by its eventual outcome: the derived promise
    is resolved with what [cb] returns or throws.  On anything else it is the
    value's own [then] that is called (a TypeError when there is none). *)
Definition promise_then (p : value) (cb : value -> completion value) : completion value :=
  match p with
  | VPromise Pending => Ret (VPromise Pending)
  | VPromise (Fulfilled v) => Ret (VPromise (settle (cb v)))
  | VPromise (Rejected e) => Ret (VPromise (Rejected e))
  | _ => call_method p "then"
  end.

(** [p.catch(cb)], likewise. *)
Definition promise_catch (p : value) (cb : value -> completion value) : completion value :=
  match p with
  | VPromise Pending => Ret (VPromise Pending)
  | VPromise (Fulfilled v) => Ret (VPromise (Fulfilled v))
  | VPromise (Rejected e) => Ret (VPromise (settle (cb e)))
  | _ => call_method p "catch"
  end.

(** ToInt32 of a boolean, as the operand of [&]. *)
Definition bool_to_int32 (b : bool) : Z := if b then 1%Z else 0%Z.

End JS.
Import JS.

(** ** The host environment *)
Module Host.

(** One global object, which the host names [self], [window] and/or [global].
    Reading one of its properties either yields a value or throws (an accessor
    the host guards, as Chrome does for [localStorage] when storage is
    disabled). *)
Record host := {
  declares_self : bool;
  declares_window : bool;
  declares_global : bool;
  declares_document : bool;
  document_visibilityState : value;
  global_object : list (string * completion value)
}.

Definition get (G : list (string * completion value)) (k : string) : completion value :=
  match lookup k G with
  | Some c => c
  | None => Ret VUndefined
  end.

(** No accessor of the global object throws, [localStorage] apart. *)
Definition accessors_ok (G : list (string * completion value)) : bool :=
  forallb (fun kc => match snd kc with
                     | Ret _ => true
                     | Throw _ => fst kc =? "localStorage"
                     end) G.

End Host.
Import Host.

(** ** browserPlatform: the platform builder *)
Module BrowserPlatform.

(** The closures that [makeBrowserPlatform] creates, with what each captures. *)
Inductive closure :=
| HttpRequestXhr (disableSyncFlush : value)
| HttpRequestFetch
| HttpAllowsPost
| HttpFallbackPing
| GetCurrentUrl (eventUrlTransformer : value)
| IsDoNotTrack
| StorageGet
| StorageSet
| StorageClear
| EventSourceFactory (eventSourceConstructor : value)
| EventSourceIsActive.

(** What a field of the descriptor holds. *)
Inductive pvalue :=
| PVal (v : value)
| PFun (c : closure)
| PObj (members : list (string * closure)).

(** The descriptor [ret] is a plain object: its fields in insertion order. *)
Definition descriptor := list (string * pvalue).

(** [ret.k = v] *)
Fixpoint assign (k : string) (v : pvalue) (ret : descriptor) : descriptor :=
  match ret with
  | [] => [(k, v)]
  | (k', v') :: ret' => if k' =? k then (k, v) :: ret' else (k', v') :: assign k v ret'
  end.

Definition field (k : string) (ret : descriptor) : option pvalue := lookup k ret.

(** The module constant [GLOBAL] (lines 7-15): "window is not defined in
    node.js or in a web worker, self is defined in a service worker, global
    is defined in node.js". *)
Definition GLOBAL (h : host) : completion (list (string * completion value)) :=
  if declares_self h then Ret (global_object h)
  else if declares_window h then Ret (global_object h)
  else if declares_global h then Ret (global_object h)
  else Throw (HostError "unable to locate global object").

(** The free identifier [global] (line 25): reading an identifier the host
    does not declare is a ReferenceError. *)
Definition global_ident (h : host) : completion (list (string * completion value)) :=
  if declares_global h then Ret (global_object h)
  else Throw (ReferenceError "global").

Definition try_catch {A} (body : completion A) (handler : exn -> completion A) : completion A :=
  match body with
  | Ret a => Ret a
  | Throw e => handler e
  end.

Definition is_function (v : value) : bool :=
  match v with
  | VFunction _ _ => true
  | _ => false
  end.

Section Builder.

(** The build-time constant [VERSION]. *)
Variable VERSION : string.

(** Lines 25-49. *)
Definition install_httpRequest (h : host) (G : list (string * completion value))
    (options : value) (ret : descriptor) : completion descriptor :=
  g <- global_ident h ;;
  xhr <- get g "XMLHttpRequest" ;;
  if truthy xhr then
    disableSyncFlush <- and_then options (get_prop options "disableSyncEventPost") ;;
    Ret (assign "httpRequest" (PFun (HttpRequestXhr disableSyncFlush)) ret)
  else
    f <- get G "fetch" ;;
    if truthy f then Ret (assign "httpRequest" (PFun HttpRequestFetch) ret)
    else Ret ret.

(** Lines 89-112. *)
Definition install_localStorage (G : list (string * completion value))
    (ret : descriptor) : completion descriptor :=
  try_catch
    (ls <- get G "localStorage" ;;
     if truthy ls then
       Ret (assign "localStorage"
              (PObj [("get", StorageGet); ("set", StorageSet); ("clear", StorageClear)]) ret)
     else Ret ret)
    (fun _ => Ret (assign "localStorage" (PVal VNull) ret)).

(** Lines 122-162. *)
Definition install_eventSource (G : list (string * completion value))
    (options : value) (ret : descriptor) : completion descriptor :=
  useReport <- and_then options (get_prop options "useReport") ;;
  polyfillOk <-
    (if truthy useReport then
       p <- get G "EventSourcePolyfill" ;;
       if is_function p then
         p1 <- get G "EventSourcePolyfill" ;;
         so <- get_prop p1 "supportedOptions" ;;
         if truthy so then
           p2 <- get G "EventSourcePolyfill" ;;
           so2 <- get_prop p2 "supportedOptions" ;;
           m <- get_prop so2 "method" ;;
           Ret (truthy m)
         else Ret false
       else Ret false
     else Ret false) ;;
  eventSourceConstructor <-
    (if polyfillOk : bool then get G "EventSourcePolyfill" else get G "EventSource") ;;
  let ret := assign "eventSourceAllowsReport" (PVal (VBool polyfillOk)) ret in
  es <- get G "EventSource" ;;
  if truthy es then
    let ret := assign "eventSourceFactory" (PFun (EventSourceFactory eventSourceConstructor)) ret in
    Ret (assign "eventSourceIsActive" (PFun EventSourceIsActive) ret)
  else Ret ret.

(** [makeBrowserPlatform(options)], lines 17-179; the module constant [GLOBAL]
    is evaluated when the module loads, before any call. *)
Definition makeBrowserPlatform (h : host) (options : value) : completion descriptor :=
  G <- GLOBAL h ;;
  let ret := [("userAgentHeaderName", PVal (VStr "X-LaunchDarkly-User-Agent"))] in
  let ret := assign "synchronousFlush" (PVal (VBool false)) ret in
  ret <- install_httpRequest h G options ret ;;
  let ret := assign "httpAllowsPost" (PFun HttpAllowsPost) ret in
  let ret := assign "httpFallbackPing" (PFun HttpFallbackPing) ret in
  eventUrlTransformer <- and_then options (get_prop options "eventUrlTransformer") ;;
  let ret := assign "getCurrentUrl" (PFun (GetCurrentUrl eventUrlTransformer)) ret in
  let ret := assign "isDoNotTrack" (PFun IsDoNotTrack) ret in
  ret <- install_localStorage G ret ;;
  ret <- install_eventSource G options ret ;;
  let ret := assign "userAgent" (PVal (VStr "JSClient")) ret in
  let ret := assign "version" (PVal (VStr VERSION)) ret in
  let ret := assign "diagnosticSdkData"
               (PVal (VObject [("name", VStr "js-client-sdk"); ("version", VStr VERSION)])) ret in
  let ret := assign "diagnosticPlatformData" (PVal (VObject [("name", VStr "JS")])) ret in
  let ret := assign "diagnosticUseCombinedEvent" (PVal (VBool true)) ret in
  Ret ret.

End Builder.

(** *** The mutable state behind a descriptor *)

(** [synchronousFlush] is the one field assigned after construction (it only
    ever holds [true] or [false]); [hasCors] is the variable captured by
    [httpAllowsPost] (line 51). *)
Record store := {
  synchronousFlush : bool;
  hasCors : value
}.

Definition initial_store : store :=
  {| synchronousFlush := false; hasCors := VUndefined |}.

Definition set_synchronousFlush (b : bool) (st : store) : store :=
  {| synchronousFlush := b; hasCors := hasCors st |}.

Definition set_hasCors (v : value) (st : store) : store :=
  {| synchronousFlush := synchronousFlush st; hasCors := v |}.

(** *** The installed closures *)

Section Closures.

(** [newHttpRequest] of the module [./httpRequest]: it receives the five
    arguments only, never the descriptor. *)
Variable newHttpRequest : value -> value -> value -> value -> value -> completion value.

(** Lines 27-31. *)
Definition httpRequest_xhr (disableSyncFlush : value) (method url headers body : value)
    (st : store) : completion value * store :=
  let syncFlush :=
    VNum (Z.land (bool_to_int32 (synchronousFlush st))
                 (bool_to_int32 (negb (truthy disableSyncFlush)))) in
  let st := set_synchronousFlush false st in
  (newHttpRequest method url headers body syncFlush, st).

End Closures.

(** The object literal of lines 41-45. *)
Definition uniform_response (res text : value) : completion value :=
  status <- get_prop res "status" ;;
  Ret (VObject [("status", status);
                ("header", VFunction (hs <- get_prop res "headers" ;;
                                      g <- get_prop hs "get" ;;
                                      call g) []);
                ("body", text)]).

(** Lines 34-48. *)
Definition httpRequest_fetch (h : host) (method url headers body : value) : completion value :=
  G <- GLOBAL h ;;
  f <- get G "fetch" ;;
  p <- call f ;;
  promise_then p (fun res =>
    t <- get_prop res "text" ;;
    q <- call t ;;
    _ <- promise_then q (fun text => uniform_response res text) ;;
    Ret VUndefined).

(** Lines 52-63.  [probe_cors] is the body of the outer [if]: it yields the
    value assigned to [hasCors], or [None] when no branch assigns. *)
Definition probe_cors (h : host) : completion (option value) :=
  G <- GLOBAL h ;;
  x <- get G "XMLHttpRequest" ;;
  if truthy x then
    x1 <- get G "XMLHttpRequest" ;;
    if truthy x1 then
      x2 <- get G "XMLHttpRequest" ;;
      o <- construct x2 ;;
      b <- has_property "withCredentials" o ;;
      Ret (Some (VBool b))
    else Ret (Some x1)
  else
    f <- get G "fetch" ;;
    if truthy f then Ret (Some (VBool true)) else Ret None.

Definition httpAllowsPost (h : host) (st : store) : completion value * store :=
  if strict_equal (hasCors st) VUndefined then
    match probe_cors h with
    | Ret (Some v) => (Ret v, set_hasCors v st)
    | Ret None => (Ret (hasCors st), st)
    | Throw e => (Throw e, st)
    end
  else (Ret (hasCors st), st).

(** Lines 66-72. *)
Definition httpFallbackPing (h : host) (url : value) : completion value :=
  G <- GLOBAL h ;;
  i <- get G "Image" ;;
  if truthy i then
    i1 <- get G "Image" ;;
    _ <- construct i1 ;;
    Ret VUndefined
  else Ret VUndefined.

(** Line 75. *)
Definition getCurrentUrl (eventUrlTransformer : value) (h : host) : completion value :=
  G <- GLOBAL h ;;
  l <- get G "location" ;;
  if truthy l then
    if truthy eventUrlTransformer then
      l1 <- get G "location" ;;
      _ <- get_prop l1 "href" ;;
      call eventUrlTransformer
    else
      l1 <- get G "location" ;;
      get_prop l1 "href"
  else Ret VUndefined.

(** Line 86. *)
Definition dnt_enabled (flag : value) : bool :=
  strict_equal flag (VNum 1) || strict_equal flag (VBool true)
  || strict_equal flag (VStr "1") || strict_equal flag (VStr "yes").

(** Lines 77-87. *)
Definition isDoNotTrack (h : host) : completion value :=
  G <- GLOBAL h ;;
  nav <- get G "navigator" ;;
  std <- and_then nav (n <- get G "navigator" ;;
                       d <- get_prop n "doNotTrack" ;;
                       Ret (VBool (negb (strict_equal d VUndefined)))) ;;
  flag <-
    (if truthy std then
       n <- get G "navigator" ;; get_prop n "doNotTrack"
     else
       nav <- get G "navigator" ;;
       ms <- and_then nav (n <- get G "navigator" ;;
                           d <- get_prop n "msDoNotTrack" ;;
                           Ret (VBool (negb (strict_equal d VUndefined)))) ;;
       if truthy ms then
         n <- get G "navigator" ;; get_prop n "msDoNotTrack"
       else get G "doNotTrack") ;;
  Ret (VBool (dnt_enabled flag)).

End BrowserPlatform.
Import BrowserPlatform.

(** ** index: the initialization shim *)
Module Index.

Definition goalsEvent : string := "goalsReady".

(** Line 28. *)
Definition hasDOM (h : host) : bool := declares_window h && declares_document h.

(** *** The hidden-page flush (lines 61-89) *)
Section SyncFlush.

(** The shared core: its own state, and [client.flush], which runs against
    the platform's store (it issues its requests through [httpRequest]). *)
Variable core : Type.
Variable flush : core * store -> completion value * (core * store).

(** [() => {}] *)
Definition swallow (_ : value) : completion value := Ret VUndefined.

(** The promise that line 66 builds from what [flush] returned. *)
Definition flush_and_catch (r : completion value) : completion value :=
  p <- r ;; promise_catch p swallow.

Definition syncFlush (w : core * store) : completion value * (core * store) :=
  let w := (fst w, set_synchronousFlush true (snd w)) in
  let (r, w) := flush w in
  match flush_and_catch r with
  | Throw e => (Throw e, w)
  | Ret _ => (Ret VUndefined, (fst w, set_synchronousFlush false (snd w)))
  end.

(** Lines 80-85; the listener is only registered when a document exists. *)
Definition handleVisibilityChange (h : host) (w : core * store)
    : completion value * (core * store) :=
  if declares_document h then
    if strict_equal (document_visibilityState h) (VStr "hidden") then
      match syncFlush w with
      | (Throw e, w) => (Throw e, w)
      | (Ret _, w) => (Ret VUndefined, w)
      end
    else (Ret VUndefined, w)
  else (Throw (ReferenceError "document"), w).

End SyncFlush.

(** *** The readiness signal (lines 39-53) *)

(** Handlers registered on the core's emitter: the arrow function of line 40,
    or a handler of somebody else. *)
Inductive listener :=
| OnGoals
| Foreign (id : nat).

Definition listener_eqb (a b : listener) : bool :=
  match a, b with
  | OnGoals, OnGoals => true
  | Foreign x, Foreign y => Nat.eqb x y
  | _, _ => false
  end.

(** The promise of line 39 (its identity and its state) and the emitter's
    registrations. *)
Record signal := {
  listeners : list (string * listener);
  goalsPromise_id : nat;
  goalsPromise : settlement value
}.

Definition with_listeners (ls : list (string * listener)) (s : signal) : signal :=
  {| listeners := ls; goalsPromise_id := goalsPromise_id s; goalsPromise := goalsPromise s |}.

(** [resolve()]: settles a pending promise, does nothing to a settled one. *)
Definition resolved (p : settlement value) : settlement value :=
  match p with
  | Pending => Fulfilled VUndefined
  | settled => settled
  end.

Definition resolve (s : signal) : signal :=
  {| listeners := listeners s;
     goalsPromise_id := goalsPromise_id s;
     goalsPromise := resolved (goalsPromise s) |}.

(** Whether the handler of line 40 is registered for [ev]. *)
Definition has_goals_listener (ev : string) (ls : list (string * listener)) : bool :=
  existsb (fun el => (fst el =? ev) && listener_eqb (snd el) OnGoals) ls.

Section Emitter.

(** The emitter contract of the shared core: [on], [off], [emit].  What
    [emitter.on] returns is the core's business: [Some l] when it hands back
    a registered handler, [None] for [undefined] or any other value. *)
Variable on_result : listener -> option listener.

Definition emitter_on (ev : string) (l : listener) (s : signal) : option listener * signal :=
  (on_result l, with_listeners (listeners s ++ [(ev, l)]) s).

Definition emitter_off (ev : string) (target : option listener) (s : signal) : signal :=
  with_listeners
    (filter (fun el => negb ((fst el =? ev) &&
                             match target with
                             | Some l => listener_eqb (snd el) l
                             | None => false
                             end)) (listeners s)) s.

(** Lines 40-43, with [onGoals] the value line 40 received from [emitter.on]. *)
Definition run_listener (onGoals : option listener) (l : listener) (s : signal) : signal :=
  match l with
  | OnGoals => resolve (emitter_off goalsEvent onGoals s)
  | Foreign _ => s
  end.

(** [emitter.emit(ev)] calls the handlers registered for [ev] when it starts. *)
Definition emitter_emit (onGoals : option listener) (ev : string) (s : signal) : signal :=
  fold_left (fun s el => if fst el =? ev then run_listener onGoals (snd el) s else s)
            (listeners s) s.

(** The constructor of [./GoalManager] receives the callback
    [() => emitter.emit(goalsEvent)]; [sync_callbacks] is how many times it
    invokes it before it returns. *)
Variable sync_callbacks : nat.

Fixpoint repeat_emit (n : nat) (onGoals : option listener) (s : signal) : signal :=
  match n with
  | O => s
  | S n' => repeat_emit n' onGoals (emitter_emit onGoals goalsEvent s)
  end.

(** Lines 39-53 of [initialize]: [registered] are the emitter's registrations
    when the core returns it, [fresh] the identity of the new promise. *)
Definition initialize_goals (h : host) (fetchGoals : value)
    (registered : list (string * listener)) (fresh : nat) : option listener * signal :=
  let s := {| listeners := registered; goalsPromise_id := fresh; goalsPromise := Pending |} in
  let (onGoals, s) := emitter_on goalsEvent OnGoals s in
  if hasDOM h && truthy fetchGoals then (onGoals, repeat_emit sync_callbacks onGoals s)
  else (onGoals, emitter_emit onGoals goalsEvent s).

(** [client.waitUntilGoalsReady()] returns the promise of line 39. *)
Definition waitUntilGoalsReady (s : signal) : nat * settlement value :=
  (goalsPromise_id s, goalsPromise s).

(** What can happen to the emitter after [initialize] has returned. *)
Inductive event :=
| ReadyCallback
| Emit (ev : string)
| On (ev : string) (id : nat)
| Off (ev : string) (id : nat).

Definition step (onGoals : option listener) (s : signal) (e : event) : signal :=
  match e with
  | ReadyCallback => emitter_emit onGoals goalsEvent s
  | Emit ev => emitter_emit onGoals ev s
  | On ev id => snd (emitter_on ev (Foreign id) s)
  | Off ev id => emitter_off ev (Some (Foreign id)) s
  end.

Definition run (onGoals : option listener) (s : signal) (tr : list event) : signal :=
  fold_left (step onGoals) tr s.

(** The states the signal goes through along [tr]. *)
Fixpoint trajectory (onGoals : option listener) (s : signal) (tr : list event) : list signal :=
  match tr with
  | [] => []
  | e :: tr' => let s' := step onGoals s e in s' :: trajectory onGoals s' tr'
  end.

End Emitter.

(** The events that emit [goalsReady]. *)
Definition emits_goals (e : event) : bool :=
  match e with
  | ReadyCallback => true
  | Emit ev => ev =? goalsEvent
  | On _ _ | Off _ _ => false
  end.

Definition foreign (r : string * nat) : string * listener := (fst r, Foreign (snd r)).

Definition fired (s : signal) : bool :=
  match goalsPromise s with
  | Fulfilled _ => true
  | _ => false
  end.

(** The number of pending-to-fired transitions along a sequence of states. *)
Fixpoint firings (before : bool) (states : list signal) : nat :=
  match states with
  | [] => O
  | s :: rest =>
      (if negb before && fired s then 1 else 0)%nat + firings (fired s) rest
  end.

(** The number of fired-to-pending transitions along a sequence of states. *)
Fixpoint resets (before : bool) (states : list signal) : nat :=
  match states with
  | [] => O
  | s :: rest =>
      (if before && negb (fired s) then 1 else 0)%nat + resets (fired s) rest
  end.

(** What holds of the signal from the registration of line 40 on: the
    promise keeps its identity, is pending or fulfilled with [undefined], and
    while it is pending the handler of line 40 is registered for [goalsReady]
    (and never for another event). *)
Definition signal_ok (fresh : nat) (s : signal) : Prop :=
  goalsPromise_id s = fresh
  /\ (goalsPromise s = Pending \/ goalsPromise s = Fulfilled VUndefined)
  /\ (goalsPromise s = Pending -> has_goals_listener goalsEvent (listeners s) = true)
  /\ (forall ev, (ev =? goalsEvent) = false -> has_goals_listener ev (listeners s) = false).

End Index.
Import Index.

(** ** Callers and concrete hosts *)
Module Scenario.

Record request := {
  req_method : value;
  req_url : value;
  req_headers : value;
  req_body : value
}.

(** Requests issued one after the other through the XMLHttpRequest strategy. *)
Fixpoint issue_requests
    (newHttpRequest : value -> value -> value -> value -> value -> completion value)
    (disableSyncFlush : value) (reqs : list request) (st : store)
    : list (completion value) * store :=
  match reqs with
  | [] => ([], st)
  | r :: rest =>
      let (res, st) := httpRequest_xhr newHttpRequest disableSyncFlush
                         (req_method r) (req_url r) (req_headers r) (req_body r) st in
      let (ress, st) := issue_requests newHttpRequest disableSyncFlush rest st in
      (res :: ress, st)
  end.

(** Successive calls of [httpAllowsPost], each on the host as it is then. *)
Fixpoint allowsPost_calls (hosts : list host) (st : store)
    : list (completion value) * store :=
  match hosts with
  | [] => ([], st)
  | h :: rest =>
      let (res, st) := httpAllowsPost h st in
      let (ress, st) := allowsPost_calls rest st in
      (res :: ress, st)
  end.

(** Neither [XMLHttpRequest] nor [fetch] is present on the global object. *)
Definition neither_present (h : host) : bool :=
  match GLOBAL h with
  | Ret G =>
      match get G "XMLHttpRequest", get G "fetch" with
      | Ret x, Ret f => negb (truthy x) && negb (truthy f)
      | _, _ => false
      end
  | Throw _ => false
  end.

Definition host_of (self window global document : bool)
    (G : list (string * completion value)) : host :=
  {| declares_self := self;
     declares_window := window;
     declares_global := global;
     declares_document := document;
     document_visibilityState := VStr "visible";
     global_object := G |}.

Definition xhr_constructor : value :=
  VFunction (Ret (VObject [("withCredentials", VBool false)])) [].

Definition response_200 : value :=
  VObject [("status", VNum 200);
           ("text", VFunction (Ret (VPromise (Fulfilled (VStr "ok")))) []);
           ("headers", VObject [("get", VFunction (Ret (VStr "application/json")) [])])].

Definition fetch_function : value :=
  VFunction (Ret (VPromise (Fulfilled response_200))) [].

(** A browser page: [self], [window] and [document], no [global]. *)
Definition browser : host :=
  host_of true true false true
    [("XMLHttpRequest", Ret xhr_constructor);
     ("fetch", Ret fetch_function);
     ("Image", Ret (VFunction (Ret (VObject [])) []));
     ("location", Ret (VObject [("href", VStr "https://example.com/")]));
     ("navigator", Ret (VObject [("doNotTrack", VStr "1")]));
     ("localStorage", Ret (VObject []));
     ("EventSource", Ret (VFunction (Ret (VObject [])) [("OPEN", VNum 1)]))].

(** node.js 18: [global] only, [fetch] but no [XMLHttpRequest]. *)
Definition node18 : host :=
  host_of false false true false [("fetch", Ret fetch_function)].

(** node.js without [fetch]: none of the probed APIs. *)
Definition bare_node : host :=
  host_of false false true false [].

(** A bundled page: the bundler also declares [global]; storage is disabled
    and the page has Internet Explorer's Do-Not-Track flag. *)
Definition bundled_page : host :=
  host_of true true true true
    [("XMLHttpRequest", Ret xhr_constructor);
     ("navigator", Ret (VObject [("msDoNotTrack", VStr "1")]));
     ("localStorage", Throw (HostError "SecurityError"))].

(** A core whose [flush] issues one request through the XMLHttpRequest
    strategy, keeps what the request layer was asked, and fails. *)
Definition echo_request (method url headers body syncFlush : value) : completion value :=
  Ret syncFlush.

Definition recording_flush (w : list (completion value) * store)
    : completion value * (list (completion value) * store) :=
  let (r, st) := httpRequest_xhr echo_request VUndefined
                   (VStr "POST") (VStr "https://example.com/events")
                   (VObject []) (VStr "[]") (snd w) in
  (Ret (VPromise (Rejected (VError (HostError "network")))), ((fst w ++ [r])%list, st)).


Definition get_request : request :=
  {| req_method := VStr "GET"; req_url := VStr "https://example.com/sdk";
     req_headers := VObject []; req_body := VUndefined |}.

End Scenario.
Import Scenario.

(** ** The specification's wording, for comparison with the code *)
Module Spec.

(** The flag the probe selects, in the words of the specification: the first
    defined one of [navigator.doNotTrack], [navigator.msDoNotTrack] and the
    global [doNotTrack]. *)
Definition navigator_property (nav : value) (k : string) : value :=
  if truthy nav then
    match get_prop nav k with
    | Ret v => v
    | Throw _ => VUndefined
    end
  else VUndefined.

Definition first_defined (candidates : list value) : value :=
  match filter (fun v => negb (strict_equal v VUndefined)) candidates with
  | v :: _ => v
  | [] => VUndefined
  end.

Definition dnt_selected (nav globalFlag : value) : value :=
  first_defined [navigator_property nav "doNotTrack";
                 navigator_property nav "msDoNotTrack";
                 globalFlag].

(** A host capability is missing when the global object has no truthy
    property of that name. *)
Definition capability_missing (G : list (string * completion value)) (cap : string) : bool :=
  match get G cap with
  | Ret v => negb (truthy v)
  | Throw _ => false
  end.

(** The descriptor fields that stand for one host capability each. *)
Definition capability_fields : list (string * string) :=
  [("Image", "httpFallbackPing");
   ("location", "getCurrentUrl");
   ("localStorage", "localStorage");
   ("EventSource", "eventSourceFactory");
   ("EventSource", "eventSourceIsActive")].

(** "Absence of a capability is represented by omitting the corresponding
    field." *)
Definition omits_missing_capabilities
    (G : list (string * completion value)) (d : descriptor) : Prop :=
  forall cap fld, In (cap, fld) capability_fields ->
                  capability_missing G cap = true -> field fld d = None.

(** "Never by a null", storage apart. *)
Definition null_only_for_storage (d : descriptor) : Prop :=
  forall k, field k d = Some (PVal VNull) -> k = "localStorage".

(** "[httpAllowsPost()] must return the same value on repeated calls after
    first invocation": the calls that follow a first call on [first] all
    return what it returned. *)
Definition memoized_after_first_call (first : host) (later : list host) : Prop :=
  forall r st,
    httpAllowsPost first initial_store = (r, st) ->
    fst (allowsPost_calls later st) = map (fun _ => r) later.

(** "If neither [XMLHttpRequest] nor [fetch] is present when
    [httpAllowsPost()] is called, it returns [undefined]": the call on [h]
    that follows the calls on [earlier]. *)
Definition absent_answers_undefined (earlier : list host) (h : host) : Prop :=
  neither_present h = true ->
  fst (httpAllowsPost h (snd (allowsPost_calls earlier initial_store))) = Ret VUndefined.



End Spec.
Import Spec.

(** ** browserPlatform: the remaining closures *)
Module Closures.

(** [new Promise((resolve) => { ...; resolve(v) })]: [executor] is the
    completion of the executor's body with the value it passes to [resolve];
    what the body throws rejects the promise. *)
Definition new_promise (executor : completion value) : value :=
  VPromise (settle executor).

(** Lines 92-95. *)
Definition storage_get (h : host) (key : value) : value :=
  new_promise
    (G <- GLOBAL h ;;
     ls <- get G "localStorage" ;;
     getItem <- get_prop ls "getItem" ;;
     call getItem).

(** Lines 96-100. *)
Definition storage_set (h : host) (key item : value) : value :=
  new_promise
    (G <- GLOBAL h ;;
     ls <- get G "localStorage" ;;
     setItem <- get_prop ls "setItem" ;;
     _ <- call setItem ;;
     Ret VUndefined).

(** Lines 101-105. *)
Definition storage_clear (h : host) (key : value) : value :=
  new_promise
    (G <- GLOBAL h ;;
     ls <- get G "localStorage" ;;
     removeItem <- get_prop ls "removeItem" ;;
     _ <- call removeItem ;;
     Ret VUndefined).

(** [o.k = v] on the properties of a plain object. *)
Fixpoint set_prop (k : string) (v : value) (props : list (string * value))
    : list (string * value) :=
  match props with
  | [] => [(k, v)]
  | (k', v') :: props' =>
      if k' =? k then (k, v) :: props' else (k', v') :: set_prop k v props'
  end.

(** The properties a list stands for: an entry shadowed by an earlier one of
    the same name is not a property. *)
Fixpoint own_props (props : list (string * value)) : list (string * value) :=
  match props with
  | [] => []
  | (k, v) :: rest => (k, v) :: filter (fun kv => negb (fst kv =? k)) (own_props rest)
  end.

(** The characters of a string under their indices. *)
Fixpoint string_entries (i : nat) (s : string) : list (string * value) :=
  match s with
  | EmptyString => []
  | String c s' =>
      (NilZero.string_of_uint (Nat.to_uint i), VStr (String c EmptyString))
        :: string_entries (S i) s'
  end.

(** What [...v] copies: the own enumerable properties of [v]; nothing for
    [undefined], [null], booleans and numbers. *)
Definition spreadable (v : value) : list (string * value) :=
  match v with
  | VObject props | VFunction _ props => own_props props
  | VStr s => own_props (string_entries 0 s)
  | _ => []
  end.

(** [{ ...target, ...v }] *)
Definition spread (target : list (string * value)) (v : value) : list (string * value) :=
  fold_left (fun acc kv => set_prop (fst kv) (snd kv) acc) (spreadable v) target.

(** Line 139. *)
Definition timeoutMillis : Z := 300000.

(** Lines 149-153. *)
Definition defaultOptions : list (string * value) :=
  [("heartbeatTimeout", VNum timeoutMillis);
   ("silentTimeout", VNum timeoutMillis);
   ("skipDefaultHeaders", VBool true)].

(** Line 155. *)
Definition esOptions (options : value) : value :=
  VObject (spread (spread [] (VObject defaultOptions)) options).

(** Lines 141-158: the constructor receives [url] and [esOptions options]. *)
Definition eventSourceFactory (eventSourceConstructor : value) (url options : value)
    : completion value :=
  construct eventSourceConstructor.

(** Lines 160-161.  The constants compared with are the host's; [strict_equal]
    is exact as soon as one side is a primitive. *)
Definition eventSourceIsActive (h : host) (es : value) : completion value :=
  G <- GLOBAL h ;;
  rs <- get_prop es "readyState" ;;
  ES <- get G "EventSource" ;;
  open <- get_prop ES "OPEN" ;;
  if strict_equal rs open then Ret (VBool true)
  else
    rs <- get_prop es "readyState" ;;
    ES <- get G "EventSource" ;;
    connecting <- get_prop ES "CONNECTING" ;;
    Ret (VBool (strict_equal rs connecting)).

End Closures.
Import Closures.

(** ** How the shared core uses the descriptor *)
Module Usage.

(** [platform.httpRequest(method, url, headers, body)] *)
Definition platform_httpRequest
    (newHttpRequest : value -> value -> value -> value -> value -> completion value)
    (d : descriptor) (h : host) (r : request) (st : store) : completion value * store :=
  match field "httpRequest" d with
  | Some (PFun (HttpRequestXhr disableSyncFlush)) =>
      httpRequest_xhr newHttpRequest disableSyncFlush
        (req_method r) (req_url r) (req_headers r) (req_body r) st
  | Some (PFun HttpRequestFetch) =>
      (httpRequest_fetch h (req_method r) (req_url r) (req_headers r) (req_body r), st)
  | _ => (Throw (TypeError "platform.httpRequest is not a function"), st)
  end.

(** [platform.getCurrentUrl()] *)
Definition platform_getCurrentUrl (d : descriptor) (h : host) : completion value :=
  match field "getCurrentUrl" d with
  | Some (PFun (GetCurrentUrl eventUrlTransformer)) => getCurrentUrl eventUrlTransformer h
  | _ => Throw (TypeError "platform.getCurrentUrl is not a function")
  end.

(** The value of [options && options.k]. *)
Definition option_of (options : value) (k : string) : value :=
  if truthy options then
    match get_prop options k with
    | Ret v => v
    | Throw _ => options
    end
  else options.

(** A core whose [flush] sends [reqs] through the XMLHttpRequest strategy,
    keeps what the request layer was asked, and succeeds. *)
Definition flush_requests (disableSyncFlush : value) (reqs : list request)
    (w : list (completion value) * store)
    : completion value * (list (completion value) * store) :=
  let (sent, st) := issue_requests echo_request disableSyncFlush reqs (snd w) in
  (Ret (VPromise (Fulfilled VUndefined)), ((fst w ++ sent)%list, st)).

(** A core whose [flush] returns a promise-like object, with a [catch] of
    its own. *)
Definition promise_like_flush (w : unit * store) : completion value * (unit * store) :=
  (Ret (VObject [("catch", VFunction (Ret VUndefined) [])]), w).

(** A core whose [flush] throws before it returns a promise. *)
Definition throwing_flush (w : unit * store) : completion value * (unit * store) :=
  (Throw (HostError "flush failed"), w).

(** An [XMLHttpRequest] whose construction throws. *)
Definition broken_xhr_host : host :=
  host_of true true true true
    [("XMLHttpRequest", Ret (VFunction (Throw (HostError "blocked")) []))].

(** A page whose [fetch] rejects. *)
Definition offline_host : host :=
  host_of false false true false
    [("fetch", Ret (VFunction (Ret (VPromise (Rejected (VStr "offline")))) []))].

(** A page with a native [EventSource] and the polyfill that supports REPORT. *)
Definition polyfill_host : host :=
  host_of true true true true
    [("EventSource",
      Ret (VFunction (Ret (VObject [("readyState", VNum 0)]))
             [("CONNECTING", VNum 0); ("OPEN", VNum 1); ("CLOSED", VNum 2)]));
     ("EventSourcePolyfill",
      Ret (VFunction (Ret (VObject [("readyState", VNum 0)]))
             [("supportedOptions", VObject [("method", VBool true)])]))].

(** A page whose storage has no entry under any key. *)
Definition empty_storage_host : host :=
  host_of true true true true
    [("localStorage", Ret (VObject [("getItem", VFunction (Ret VNull) [])]))].

(** A page that says no to tracking on [navigator] and yes on the global. *)
Definition mixed_dnt_host : host :=
  host_of true true true true
    [("navigator", Ret (VObject [("doNotTrack", VStr "0")]));
     ("doNotTrack", Throw (HostError "guarded"))].

End Usage.
Import Usage.

(** * Properties *)

(** ** Basic facts about descriptors and hosts *)

Lemma field_assign_same k v ret : field k (assign k v ret) = Some v.
Proof.
  unfold field.
  induction ret as [|[k' v'] ret IH]; simpl.
  - now rewrite String.eqb_refl.
  - destruct (k' =? k) eqn:E; simpl.
    + now rewrite String.eqb_refl.
    + now rewrite E.
Qed.

Lemma field_assign_other k k' v ret :
  (k' =? k) = false -> field k (assign k' v ret) = field k ret.
Proof.
  intros Hne. unfold field.
  induction ret as [|[k0 v0] ret IH]; simpl.
  - now rewrite Hne.
  - destruct (k0 =? k') eqn:E; simpl.
    + apply String.eqb_eq in E. subst k0. now rewrite Hne.
    + now rewrite IH.
Qed.

Lemma get_accessor_ok G k :
  accessors_ok G = true -> (k =? "localStorage") = false ->
  exists v, get G k = Ret v.
Proof.
  unfold get, accessors_ok.
  induction G as [|[k0 c] G IH]; simpl; intros Hok Hk.
  - now exists VUndefined.
  - apply andb_true_iff in Hok as [Hc Hok].
    destruct (k0 =? k) eqn:E.
    + apply String.eqb_eq in E. subst k0.
      destruct c as [v|e]; [now exists v | congruence].
    + now apply IH.
Qed.

Lemma GLOBAL_of_global h :
  declares_global h = true -> GLOBAL h = Ret (global_object h).
Proof.
  intros Hg. unfold GLOBAL. rewrite Hg.
  now destruct (declares_self h), (declares_window h).
Qed.

Lemma global_ident_of_global h :
  declares_global h = true -> global_ident h = Ret (global_object h).
Proof. intros Hg. unfold global_ident. now rewrite Hg. Qed.

(** ** Do-Not-Track *)

Lemma dnt_enabled_iff v :
  dnt_enabled v = true <->
  v = VNum 1 \/ v = VBool true \/ v = VStr "1" \/ v = VStr "yes".
Proof.
  unfold dnt_enabled. split.
  - intros H.
    destruct v as [| |b|n|s|e|o|f o|p]; simpl in H; try discriminate.
    + destruct b; [auto | discriminate].
    + rewrite !orb_false_r in H. apply Z.eqb_eq in H. subst. auto.
    + apply orb_true_iff in H as [H|H]; apply String.eqb_eq in H; subst; auto.
  - intros [->|[->|[->| ->]]]; reflexivity.
Qed.

Lemma strict_equal_undefined v : strict_equal v VUndefined = true -> v = VUndefined.
Proof. now destruct v. Qed.

Lemma isDoNotTrack_selected h G nav globalFlag :
  GLOBAL h = Ret G ->
  get G "navigator" = Ret nav ->
  get G "doNotTrack" = Ret globalFlag ->
  isDoNotTrack h = Ret (VBool (dnt_enabled (dnt_selected nav globalFlag))).
Proof.
  intros HG Hnav Hflag.
  unfold isDoNotTrack, dnt_selected, first_defined, navigator_property, and_then.
  rewrite HG. simpl bind. rewrite !Hnav. simpl bind.
  destruct (truthy nav) eqn:Tn.
  - assert (Hd : forall k, exists v, get_prop nav k = Ret v).
    { intros k. destruct nav; simpl in *; try discriminate; eauto. }
    destruct (Hd "doNotTrack") as [d Ed]. destruct (Hd "msDoNotTrack") as [m Em].
    rewrite Ed, Em. simpl.
    destruct (strict_equal d VUndefined) eqn:Sd; simpl; [|reflexivity].
    destruct (strict_equal m VUndefined) eqn:Sm; simpl; [|reflexivity].
    rewrite Hflag. simpl.
    destruct (strict_equal globalFlag VUndefined) eqn:Sg; simpl; [|reflexivity].
    now rewrite (strict_equal_undefined _ Sg).
  - simpl. rewrite ?Tn. simpl. rewrite Hflag. simpl.
    destruct (strict_equal globalFlag VUndefined) eqn:Sg; simpl; [|reflexivity].
    now rewrite (strict_equal_undefined _ Sg).
Qed.

Lemma isDoNotTrack_total h G nav globalFlag :
  GLOBAL h = Ret G ->
  get G "navigator" = Ret nav ->
  get G "doNotTrack" = Ret globalFlag ->
  exists b, isDoNotTrack h = Ret (VBool b).
Proof. intros. eexists. now apply (isDoNotTrack_selected h G nav globalFlag). Qed.

(** C8: [isDoNotTrack] takes the first defined of [navigator.doNotTrack],
    [navigator.msDoNotTrack] and the global [doNotTrack], and answers [true]
    exactly for the values 1, true, '1' and 'yes'; so it answers [false] for
    '0', 0, false and undefined. *)
Theorem isDoNotTrack_selects_first_defined (h : host)
    (G : list (string * completion value)) (nav globalFlag : value) :
  GLOBAL h = Ret G ->
  get G "navigator" = Ret nav ->
  get G "doNotTrack" = Ret globalFlag ->
  isDoNotTrack h = Ret (VBool (dnt_enabled (dnt_selected nav globalFlag)))
  /\ (forall v, dnt_enabled v = true <->
                v = VNum 1 \/ v = VBool true \/ v = VStr "1" \/ v = VStr "yes")
  /\ dnt_enabled (VStr "0") = false /\ dnt_enabled (VNum 0) = false
  /\ dnt_enabled (VBool false) = false /\ dnt_enabled VUndefined = false.
Proof.
  intros HG Hnav Hflag.
  split; [| split; [exact dnt_enabled_iff | repeat split]].
  now apply (isDoNotTrack_selected h G).
Qed.

Lemma isDoNotTrack_selects_first_defined_witness :
  isDoNotTrack bundled_page = Ret (VBool true).
Proof.
  exact (proj1 (isDoNotTrack_selects_first_defined bundled_page
                  (global_object bundled_page)
                  (VObject [("msDoNotTrack", VStr "1")]) VUndefined
                  eq_refl eq_refl eq_refl)).
Defined.

(** ** The XMLHttpRequest strategy and the synchronous-flush flag *)

Lemma land_flag (a b : bool) :
  Z.land (bool_to_int32 a) (bool_to_int32 b) = bool_to_int32 (a && b).
Proof. now destruct a, b. Qed.

Lemma truthy_flag (b : bool) : truthy (VNum (bool_to_int32 b)) = b.
Proof. now destruct b. Qed.

Lemma issue_requests_flag_cleared nhr d reqs st :
  synchronousFlush st = false ->
  issue_requests nhr d reqs st =
  (map (fun r => nhr (req_method r) (req_url r) (req_headers r) (req_body r) (VNum 0)) reqs,
   st).
Proof.
  revert st. induction reqs as [|r reqs IH]; intros st Hf; simpl; [reflexivity|].
  rewrite Hf. simpl.
  replace (set_synchronousFlush false st) with st
    by (destruct st; simpl in *; now subst).
  now rewrite (IH st Hf).
Qed.

(** C9: a request through the XMLHttpRequest strategy leaves
    [synchronousFlush] false whatever the underlying request does; the
    synchronous-delivery argument it passes down is truthy exactly when the
    flag was set and [disableSyncEventPost] is falsy; and of the requests that
    follow one setting of the flag only the first can receive a truthy one. *)
Theorem httpRequest_xhr_clears_flag
    (newHttpRequest : value -> value -> value -> value -> value -> completion value)
    (disableSyncFlush method url headers body : value) (st : store)
    (r : request) (rest : list request) :
  let sync := VNum (bool_to_int32 (synchronousFlush st && negb (truthy disableSyncFlush))) in
  httpRequest_xhr newHttpRequest disableSyncFlush method url headers body st =
    (newHttpRequest method url headers body sync, set_synchronousFlush false st)
  /\ synchronousFlush (set_synchronousFlush false st) = false
  /\ truthy sync = synchronousFlush st && negb (truthy disableSyncFlush)
  /\ issue_requests newHttpRequest disableSyncFlush (r :: rest) st =
       (newHttpRequest (req_method r) (req_url r) (req_headers r) (req_body r) sync ::
        map (fun q => newHttpRequest (req_method q) (req_url q) (req_headers q)
                        (req_body q) (VNum 0)) rest,
        set_synchronousFlush false st).
Proof.
  cbv zeta. repeat split.
  - unfold httpRequest_xhr. now rewrite land_flag.
  - apply truthy_flag.
  - simpl. rewrite land_flag.
    now rewrite (issue_requests_flag_cleared _ _ rest (set_synchronousFlush false st) eq_refl).
Qed.

Example issue_requests_after_flag_set :
  issue_requests echo_request VUndefined [get_request; get_request]
    (set_synchronousFlush true initial_store) =
  ([Ret (VNum 1); Ret (VNum 0)], initial_store).
Proof. reflexivity. Qed.

Example issue_requests_sync_post_disabled :
  issue_requests echo_request (VBool true) [get_request; get_request]
    (set_synchronousFlush true initial_store) =
  ([Ret (VNum 0); Ret (VNum 0)], initial_store).
Proof. reflexivity. Qed.

(** ** The capability probe [httpAllowsPost] *)

Lemma neither_present_probe h :
  neither_present h = true -> probe_cors h = Ret None.
Proof.
  unfold neither_present, probe_cors.
  destruct (GLOBAL h) as [G|e]; [|discriminate]. simpl.
  destruct (get G "XMLHttpRequest") as [x|e]; [|discriminate].
  destruct (get G "fetch") as [f|e]; [|discriminate]. simpl.
  intros H. apply andb_true_iff in H as [Hx Hf].
  apply negb_true_iff in Hx, Hf. now rewrite Hx, Hf.
Qed.

Lemma httpAllowsPost_unfilled h st :
  hasCors st = VUndefined -> neither_present h = true ->
  httpAllowsPost h st = (Ret VUndefined, st).
Proof.
  intros Hc Hn. unfold httpAllowsPost.
  rewrite Hc. simpl. now rewrite (neither_present_probe h Hn).
Qed.

(** Once the cell holds a value, that value is returned on any host. *)
Lemma httpAllowsPost_memoized h st :
  strict_equal (hasCors st) VUndefined = false ->
  httpAllowsPost h st = (Ret (hasCors st), st).
Proof. intros H. unfold httpAllowsPost. now rewrite H. Qed.

Lemma probe_cors_defined h v :
  probe_cors h = Ret (Some v) -> strict_equal v VUndefined = false.
Proof.
  unfold probe_cors.
  destruct (GLOBAL h) as [G|e]; [|discriminate]. simpl.
  destruct (get G "XMLHttpRequest") as [x|e]; [|discriminate]. simpl.
  destruct (truthy x) eqn:Tx.
  - destruct (construct x) as [o|e]; [|discriminate]. simpl.
    destruct (has_property "withCredentials" o) as [b|e]; [|discriminate]. simpl.
    intros H. now inversion H.
  - destruct (get G "fetch") as [f|e]; [|discriminate]. simpl.
    destruct (truthy f); intros H; now inversion H.
Qed.

(** C4, as the code has it: a first call that finds [XMLHttpRequest] or
    [fetch] and returns fills the cell, and every later call repeats its
    answer whatever has become of the host. *)
Theorem httpAllowsPost_memoized_once_found (h : host) (v : value) (st' : store)
    (later : list host) :
  httpAllowsPost h initial_store = (Ret v, st') ->
  neither_present h = false ->
  fst (allowsPost_calls later st') = map (fun _ => Ret v) later.
Proof.
  unfold httpAllowsPost. simpl.
  destruct (probe_cors h) as [[w|]|e] eqn:Ep.
  - intros H _. inversion H; subst. clear H.
    pose proof (probe_cors_defined _ _ Ep) as Hd.
    induction later as [|h' later IH]; simpl; [reflexivity|].
    rewrite httpAllowsPost_memoized by exact Hd. simpl.
    destruct (allowsPost_calls later (set_hasCors v initial_store)) eqn:E.
    simpl in *. now rewrite IH.
  - intros _ Hn. exfalso.
    unfold probe_cors, neither_present in *.
    destruct (GLOBAL h) as [G|e]; [|discriminate]. simpl in *.
    destruct (get G "XMLHttpRequest") as [x|e]; [|discriminate]. simpl in *.
    destruct (truthy x) eqn:Tx.
    + destruct (construct x) as [o|e]; [|discriminate]. simpl in Ep.
      destruct (has_property "withCredentials" o); discriminate.
    + destruct (get G "fetch") as [f|e]; [|discriminate]. simpl in *.
      destruct (truthy f); [discriminate|]. discriminate.
  - discriminate.
Qed.

(** From construction on, while neither [XMLHttpRequest] nor [fetch] is
    present, every call of [httpAllowsPost] answers [undefined] and leaves
    the cell unfilled, so that the next call probes the host again, as a
    first call does. *)
Theorem httpAllowsPost_neither_undefined (hosts : list host) (next : host) :
  forallb neither_present hosts = true ->
  allowsPost_calls hosts initial_store = (map (fun _ => Ret VUndefined) hosts, initial_store)
  /\ hasCors (snd (allowsPost_calls hosts initial_store)) = VUndefined
  /\ httpAllowsPost next (snd (allowsPost_calls hosts initial_store)) =
     match probe_cors next with
     | Ret (Some v) => (Ret v, set_hasCors v initial_store)
     | Ret None => (Ret VUndefined, initial_store)
     | Throw e => (Throw e, initial_store)
     end.
Proof.
  intros Hall.
  assert (E : allowsPost_calls hosts initial_store =
              (map (fun _ => Ret VUndefined) hosts, initial_store)).
  { induction hosts as [|h hosts IH]; simpl; [reflexivity|].
    simpl in Hall. apply andb_true_iff in Hall as [Hh Hall].
    rewrite (httpAllowsPost_unfilled h initial_store eq_refl Hh).
    now rewrite (IH Hall). }
  rewrite E. simpl. repeat split.
Qed.

Lemma httpAllowsPost_neither_undefined_witness :
  allowsPost_calls [bare_node; bare_node] initial_store =
    ([Ret VUndefined; Ret VUndefined], initial_store).
Proof.
  exact (proj1 (httpAllowsPost_neither_undefined [bare_node; bare_node] node18 eq_refl)).
Defined.

Lemma httpAllowsPost_memoized_once_found_witness :
  fst (allowsPost_calls [bare_node; node18] (set_hasCors (VBool true) initial_store)) =
    [Ret (VBool true); Ret (VBool true)].
Proof.
  exact (httpAllowsPost_memoized_once_found browser (VBool true)
           (set_hasCors (VBool true) initial_store) [bare_node; node18]
           eq_refl eq_refl).
Defined.

(** C4, as stated, fails when the first call finds neither API: it answers
    [undefined] and memoizes nothing, and once [fetch] has appeared the next
    call answers [true]. *)
Lemma httpAllowsPost_not_memoized_when_absent :
  ~ memoized_after_first_call bare_node [node18].
Proof.
  intros H. specialize (H (Ret VUndefined) initial_store eq_refl).
  vm_compute in H. discriminate H.
Qed.

Example httpAllowsPost_absent_then_fetch :
  allowsPost_calls [bare_node; node18] initial_store =
    ([Ret VUndefined; Ret (VBool true)], set_hasCors (VBool true) initial_store).
Proof. reflexivity. Qed.


(** ** Construction of the descriptor *)

(** C1: on a browser page the global object has [XMLHttpRequest], yet
    [makeBrowserPlatform] installs no strategy: line 25 reads the identifier
    [global], which a page does not declare, and the call throws. *)
Theorem makeBrowserPlatform_browser_throws (VERSION : string) (options : value) :
  (G <- GLOBAL browser ;; x <- get G "XMLHttpRequest" ;; Ret (truthy x)) = Ret true
  /\ makeBrowserPlatform VERSION browser options = Throw (ReferenceError "global").
Proof. split; reflexivity. Qed.

(** Where [global] is declared, the selection is the one the descriptor is
    meant to make: XMLHttpRequest first, then fetch, else no field. *)
Lemma install_httpRequest_selection h options ret x f :
  declares_global h = true ->
  get (global_object h) "XMLHttpRequest" = Ret x ->
  get (global_object h) "fetch" = Ret f ->
  exists d,
    install_httpRequest h (global_object h) options ret =
    Ret (if truthy x then assign "httpRequest" (PFun (HttpRequestXhr d)) ret
         else if truthy f then assign "httpRequest" (PFun HttpRequestFetch) ret
              else ret).
Proof.
  intros Hg Hx Hf. unfold install_httpRequest.
  rewrite (global_ident_of_global h Hg). simpl. rewrite Hx. simpl.
  destruct (truthy x).
  - unfold and_then. destruct (truthy options) eqn:To.
    + destruct options; simpl in *; try discriminate; eexists; reflexivity.
    + exists options. reflexivity.
  - exists VUndefined. rewrite Hf. simpl. now destruct (truthy f).
Qed.

(** ** The fetch strategy *)

(** Whatever promise the host's [fetch] returns, the promise that the fetch
    strategy returns is never fulfilled with anything but [undefined]. *)
Lemma httpRequest_fetch_fulfils_undefined h method url headers body G f s v :
  GLOBAL h = Ret G ->
  get G "fetch" = Ret f ->
  call f = Ret (VPromise s) ->
  httpRequest_fetch h method url headers body = Ret (VPromise (Fulfilled v)) ->
  v = VUndefined.
Proof.
  intros HG Hf Hc. unfold httpRequest_fetch.
  rewrite HG. simpl. rewrite Hf. simpl. rewrite Hc. simpl.
  destruct s as [|res|r]; simpl; try discriminate.
  destruct (get_prop res "text") as [t|e]; simpl; [|discriminate].
  destruct (call t) as [q|e]; simpl; [|discriminate].
  destruct (promise_then q (fun text => uniform_response res text)) as [w|e]; simpl.
  - intros H. now inversion H.
  - discriminate.
Qed.

(** C2: on node.js 18 the fetch strategy is the one installed; [fetch]
    answers 200 with the text "ok", the inner promise of line 40 carries the
    uniform response, but the promise [httpRequest] returns is fulfilled with
    [undefined]: the callback of line 39 returns nothing. *)
Theorem httpRequest_fetch_resolves_undefined (VERSION : string) :
  (d <- makeBrowserPlatform VERSION node18 VUndefined ;;
   Ret (field "httpRequest" d)) = Ret (Some (PFun HttpRequestFetch))
  /\ httpRequest_fetch node18 (VStr "GET") (VStr "https://example.com/sdk")
       (VObject []) VUndefined = Ret (VPromise (Fulfilled VUndefined))
  /\ (t <- get_prop response_200 "text" ;; q <- call t ;;
      promise_then q (fun text => uniform_response response_200 text)) =
     Ret (VPromise (Fulfilled
       (VObject [("status", VNum 200);
                 ("header", VFunction (Ret (VStr "application/json")) []);
                 ("body", VStr "ok")]))).
Proof. repeat split. Qed.

(** ** Storage *)

(** The guarded block of lines 89-112 turns a throwing access into [null]. *)
Lemma install_localStorage_throws G ret e :
  get G "localStorage" = Throw e ->
  install_localStorage G ret = Ret (assign "localStorage" (PVal VNull) ret).
Proof. intros H. unfold install_localStorage. now rewrite H. Qed.

Lemma install_localStorage_returns G ret v :
  get G "localStorage" = Ret v ->
  install_localStorage G ret =
  Ret (if truthy v then
         assign "localStorage"
           (PObj [("get", StorageGet); ("set", StorageSet); ("clear", StorageClear)]) ret
       else ret).
Proof. intros H. unfold install_localStorage. rewrite H. simpl. now destruct (truthy v). Qed.

(** With [global] declared the same page gets its descriptor, and the field
    is [null]. *)
Lemma makeBrowserPlatform_bundled_page_null VERSION :
  (d <- makeBrowserPlatform VERSION bundled_page VUndefined ;;
   Ret (field "localStorage" d)) = Ret (Some (PVal VNull)).
Proof. reflexivity. Qed.

(** ** Capabilities and fields *)

Lemma and_then_get_prop options k :
  exists v, and_then options (get_prop options k) = Ret v.
Proof.
  unfold and_then. destruct (truthy options) eqn:To.
  - destruct options; simpl in *; try discriminate; eexists; reflexivity.
  - now exists options.
Qed.

Lemma get_prop_truthy o k : truthy o = true -> exists v, get_prop o k = Ret v.
Proof. destruct o; simpl; try discriminate; eexists; reflexivity. Qed.

Lemma install_eventSource_shape G options ret es :
  accessors_ok G = true ->
  get G "EventSource" = Ret es ->
  exists b c,
    install_eventSource G options ret =
    Ret (if truthy es then
           assign "eventSourceIsActive" (PFun EventSourceIsActive)
             (assign "eventSourceFactory" (PFun (EventSourceFactory c))
                (assign "eventSourceAllowsReport" (PVal (VBool b)) ret))
         else assign "eventSourceAllowsReport" (PVal (VBool b)) ret).
Proof.
  intros Hok Hes. unfold install_eventSource.
  destruct (and_then_get_prop options "useReport") as [u ->]. simpl.
  destruct (get_accessor_ok G "EventSourcePolyfill" Hok eq_refl) as [p Hp].
  assert (Hpoly : exists b : bool,
    (if truthy u then
       p <- get G "EventSourcePolyfill" ;;
       if is_function p then
         p1 <- get G "EventSourcePolyfill" ;;
         so <- get_prop p1 "supportedOptions" ;;
         if truthy so then
           p2 <- get G "EventSourcePolyfill" ;;
           so2 <- get_prop p2 "supportedOptions" ;;
           m <- get_prop so2 "method" ;;
           Ret (truthy m)
         else Ret false
       else Ret false
     else Ret false) = Ret b).
  { destruct (truthy u); [|now exists false].
    rewrite Hp. simpl.
    destruct (is_function p) eqn:Fp; [|now exists false].
    destruct (get_prop_truthy p "supportedOptions") as [so Hso];
      [now destruct p|].
    rewrite Hso. simpl.
    destruct (truthy so) eqn:Ts; [|now exists false].
    destruct (get_prop_truthy so "method" Ts) as [m Hm].
    rewrite Hm. simpl. now exists (truthy m). }
  destruct Hpoly as [b ->]. simpl.
  exists b. destruct b; rewrite ?Hp, ?Hes; simpl; rewrite ?Hes; simpl;
    [exists p | exists es]; now destruct (truthy es).
Qed.

Lemma lookup_Forall {A} (P : string -> A -> Prop) (l : list (string * A)) :
  Forall (fun kv => P (fst kv) (snd kv)) l ->
  forall k v, lookup k l = Some v -> P k v.
Proof.
  induction 1 as [|[k' v'] l HP _ IH]; simpl; intros k v Hl; [discriminate|].
  destruct (k' =? k) eqn:E.
  - apply String.eqb_eq in E. inversion Hl. now subst.
  - now apply IH.
Qed.

Ltac field_simpl :=
  repeat first [ rewrite field_assign_same
               | rewrite field_assign_other by reflexivity ];
  unfold field; simpl.

Ltac no_null_fields :=
  unfold null_only_for_storage, field; intros k Hk;
  refine (lookup_Forall (fun k v => v = PVal VNull -> k = "localStorage") _ _ k _ Hk eq_refl);
  vm_compute;
  repeat (apply Forall_cons; [intros Hv; try discriminate Hv; try reflexivity|]);
  apply Forall_nil.

(** C3, as the code has it.  Where the identifier [global] is declared and
    no property of the global object other than [localStorage] throws when
    read, construction returns a descriptor.  [httpRequest],
    [eventSourceFactory], [eventSourceIsActive] and [localStorage] are omitted
    exactly when their host API is missing; [localStorage] is [null] exactly
    when reading it throws, and no other field is [null].  [httpAllowsPost],
    [httpFallbackPing], [getCurrentUrl] and [isDoNotTrack] are installed on
    every host, and answer without throwing when their API is missing. *)
Theorem makeBrowserPlatform_capabilities (VERSION : string) (h : host)
    (options url transformer : value) :
  declares_global h = true ->
  accessors_ok (global_object h) = true ->
  exists d,
    makeBrowserPlatform VERSION h options = Ret d
    /\ (field "httpRequest" d = None <-> neither_present h = true)
    /\ (field "eventSourceFactory" d = None <->
        capability_missing (global_object h) "EventSource" = true)
    /\ (field "eventSourceIsActive" d = None <->
        capability_missing (global_object h) "EventSource" = true)
    /\ (field "localStorage" d = None <->
        capability_missing (global_object h) "localStorage" = true)
    /\ (field "localStorage" d = Some (PVal VNull) <->
        exists e, get (global_object h) "localStorage" = Throw e)
    /\ null_only_for_storage d
    /\ field "httpAllowsPost" d = Some (PFun HttpAllowsPost)
    /\ field "httpFallbackPing" d = Some (PFun HttpFallbackPing)
    /\ field "isDoNotTrack" d = Some (PFun IsDoNotTrack)
    /\ (exists t, field "getCurrentUrl" d = Some (PFun (GetCurrentUrl t)))
    /\ (capability_missing (global_object h) "Image" = true ->
        httpFallbackPing h url = Ret VUndefined)
    /\ (capability_missing (global_object h) "location" = true ->
        getCurrentUrl transformer h = Ret VUndefined)
    /\ (neither_present h = true ->
        httpAllowsPost h initial_store = (Ret VUndefined, initial_store))
    /\ exists b, isDoNotTrack h = Ret (VBool b).
Proof.
  intros Hg Hok.
  pose proof (GLOBAL_of_global h Hg) as HG.
  destruct (get_accessor_ok (global_object h) "XMLHttpRequest" Hok eq_refl) as [x Hx].
  destruct (get_accessor_ok (global_object h) "fetch" Hok eq_refl) as [f Hf].
  destruct (get_accessor_ok (global_object h) "EventSource" Hok eq_refl) as [es Hes].
  destruct (get_accessor_ok (global_object h) "Image" Hok eq_refl) as [img Himg].
  destruct (get_accessor_ok (global_object h) "location" Hok eq_refl) as [loc Hloc].
  destruct (get_accessor_ok (global_object h) "navigator" Hok eq_refl) as [nav Hnav].
  destruct (get_accessor_ok (global_object h) "doNotTrack" Hok eq_refl) as [dnt Hdnt].
  unfold makeBrowserPlatform, neither_present, capability_missing.
  rewrite HG. simpl bind.
  match goal with
  | |- context [install_httpRequest h (global_object h) options ?r] =>
      destruct (install_httpRequest_selection h options r x f Hg Hx Hf) as [dsf ->]
  end.
  simpl bind.
  destruct (and_then_get_prop options "eventUrlTransformer") as [t ->]. simpl bind.
  rewrite Hx, Hf, Hes, Himg, Hloc.
  assert (Hls : exists r,
    (forall ret, install_localStorage (global_object h) ret =
       Ret (match r with
            | Ret v => if truthy v then
                         assign "localStorage"
                           (PObj [("get", StorageGet); ("set", StorageSet);
                                  ("clear", StorageClear)]) ret
                       else ret
            | Throw _ => assign "localStorage" (PVal VNull) ret
            end))
    /\ get (global_object h) "localStorage" = r).
  { destruct (get (global_object h) "localStorage") as [v|e] eqn:E; eexists; split; try reflexivity;
      intros ret; [now apply install_localStorage_returns
                  | now apply (install_localStorage_throws _ _ e)]. }
  destruct Hls as [r [Hinst Hr]]. rewrite Hinst, Hr. simpl bind.
  match goal with
  | |- context [install_eventSource (global_object h) options ?r] =>
      destruct (install_eventSource_shape (global_object h) options r es Hok Hes) as [b [c ->]]
  end.
  simpl bind.
  eexists. split; [reflexivity|].
  repeat match goal with |- _ /\ _ => split end.
  - destruct (truthy x), (truthy f), (truthy es), r as [v|e]; try destruct (truthy v);
      field_simpl; split; intros; congruence.
  - destruct (truthy x), (truthy f), (truthy es), r as [v|e]; try destruct (truthy v);
      field_simpl; split; intros; congruence.
  - destruct (truthy x), (truthy f), (truthy es), r as [v|e]; try destruct (truthy v);
      field_simpl; split; intros; congruence.
  - destruct (truthy x), (truthy f), (truthy es), r as [v|e]; try destruct (truthy v);
      field_simpl; split; intros; congruence.
  - destruct (truthy x), (truthy f), (truthy es), r as [v|e]; try destruct (truthy v);
      field_simpl; split; intros H; try congruence;
      try (destruct H; congruence); eauto.
  - destruct (truthy x), (truthy f), (truthy es), r as [v|e]; try destruct (truthy v);
      no_null_fields.
  - destruct (truthy x), (truthy f), (truthy es), r as [v|e]; try destruct (truthy v);
      now field_simpl.
  - destruct (truthy x), (truthy f), (truthy es), r as [v|e]; try destruct (truthy v);
      now field_simpl.
  - destruct (truthy x), (truthy f), (truthy es), r as [v|e]; try destruct (truthy v);
      now field_simpl.
  - exists t.
    destruct (truthy x), (truthy f), (truthy es), r as [v|e]; try destruct (truthy v);
      now field_simpl.
  - intros Hm. unfold httpFallbackPing. rewrite HG. simpl. rewrite Himg. simpl.
    apply negb_true_iff in Hm. now rewrite Hm.
  - intros Hm. unfold getCurrentUrl. rewrite HG. simpl. rewrite Hloc. simpl.
    apply negb_true_iff in Hm. now rewrite Hm.
  - intros Hn. apply httpAllowsPost_unfilled; [reflexivity|].
    unfold neither_present. now rewrite HG, Hx, Hf.
  - destruct (isDoNotTrack_total h (global_object h) nav dnt HG Hnav Hdnt) as [dntFlag Hd].
    now exists dntFlag.
Qed.

(** ** The hidden-page flush *)

Lemma flush_and_catch_never_rejects s :
  exists s', flush_and_catch (Ret (VPromise s)) = Ret (VPromise s')
             /\ forall e, s' <> Rejected e.
Proof.
  destruct s as [|v|r]; simpl; eexists; (split; [reflexivity|]); intros e; discriminate.
Qed.

(** C5: the handler sets [synchronousFlush], calls [flush] on the platform
    in that state, and, whatever the promise [flush] returned comes to,
    returns normally with the flag cleared; the promise that [catch] derives
    is never rejected.  The [visibilitychange] listener does the same when
    the page is hidden. *)
Theorem syncFlush_sets_and_clears_flag (core : Type)
    (flush : core * store -> completion value * (core * store))
    (h : host) (w w' : core * store) (s : settlement value) :
  flush (fst w, set_synchronousFlush true (snd w)) = (Ret (VPromise s), w') ->
  synchronousFlush (snd (fst w, set_synchronousFlush true (snd w))) = true
  /\ syncFlush core flush w = (Ret VUndefined, (fst w', set_synchronousFlush false (snd w')))
  /\ synchronousFlush (snd (snd (syncFlush core flush w))) = false
  /\ (exists s', flush_and_catch (Ret (VPromise s)) = Ret (VPromise s')
                 /\ forall e, s' <> Rejected e)
  /\ (declares_document h = true ->
      handleVisibilityChange core flush h w =
      if strict_equal (document_visibilityState h) (VStr "hidden")
      then (Ret VUndefined, (fst w', set_synchronousFlush false (snd w')))
      else (Ret VUndefined, w)).
Proof.
  intros Hflush.
  assert (E : syncFlush core flush w =
              (Ret VUndefined, (fst w', set_synchronousFlush false (snd w')))).
  { unfold syncFlush. rewrite Hflush.
    destruct (flush_and_catch_never_rejects s) as [s' [-> _]]. reflexivity. }
  split; [reflexivity|]. split; [exact E|]. split; [now rewrite E|].
  split; [apply flush_and_catch_never_rejects|].
  intros Hd. unfold handleVisibilityChange. rewrite Hd, E.
  now destruct (strict_equal (document_visibilityState h) (VStr "hidden")).
Qed.

Lemma syncFlush_sets_and_clears_flag_witness :
  recording_flush ([], set_synchronousFlush true initial_store) =
    (Ret (VPromise (Rejected (VError (HostError "network")))),
     ([Ret (VNum 1)], initial_store))
  /\ syncFlush _ recording_flush ([], initial_store) =
     (Ret VUndefined, ([Ret (VNum 1)], initial_store)).
Proof.
  split; [reflexivity|].
  exact (proj1 (proj2 (syncFlush_sets_and_clears_flag _ recording_flush browser
                         ([], initial_store) ([Ret (VNum 1)], initial_store)
                         (Rejected (VError (HostError "network"))) eq_refl))).
Defined.

(** ** The readiness signal *)

Section Readiness.

Variable on_result : listener -> option listener.
Variable onGoals : option listener.
Variable fresh : nat.

Lemma resolved_idempotent p : resolved (resolved p) = resolved p.
Proof. now destruct p. Qed.

Lemma has_goals_listener_incl ev l l' :
  incl l' l -> has_goals_listener ev l = false -> has_goals_listener ev l' = false.
Proof.
  intros Hi Hl. unfold has_goals_listener in *.
  destruct (existsb _ l') eqn:E; [|reflexivity].
  apply existsb_exists in E as [el [Hin Hel]].
  rewrite <- Hl. symmetry. apply existsb_exists. exists el. split; [now apply Hi | exact Hel].
Qed.

Lemma emit_fold ev l s :
  let r := fold_left (fun s el => if fst el =? ev then run_listener onGoals (snd el) s else s)
                     l s in
  goalsPromise_id r = goalsPromise_id s
  /\ goalsPromise r = (if has_goals_listener ev l then resolved (goalsPromise s)
                       else goalsPromise s)
  /\ (has_goals_listener ev l = false -> listeners r = listeners s)
  /\ incl (listeners r) (listeners s).
Proof.
  revert s. induction l as [|[e0 l0] l IH]; intros s; simpl.
  - repeat split; auto using incl_refl.
  - destruct (e0 =? ev) eqn:E; simpl.
    + destruct l0 as [|id]; simpl.
      * specialize (IH (resolve (emitter_off goalsEvent onGoals s))).
        simpl in IH. destruct IH as [Hid [Hp [_ Hincl]]].
        repeat split.
        -- exact Hid.
        -- rewrite Hp, resolved_idempotent. now destruct (has_goals_listener ev l).
        -- discriminate.
        -- intros el Hel. apply Hincl in Hel. simpl in Hel.
           now apply filter_In in Hel as [Hel _].
      * apply IH.
    + apply IH.
Qed.

Lemma has_goals_listener_app ev l l' :
  has_goals_listener ev (l ++ l') = has_goals_listener ev l || has_goals_listener ev l'.
Proof. apply existsb_app. Qed.

Lemma has_goals_listener_off ev ev' id l :
  has_goals_listener ev
    (filter (fun el => negb ((fst el =? ev') && listener_eqb (snd el) (Foreign id))) l)
  = has_goals_listener ev l.
Proof.
  induction l as [|[e0 l0] l IH]; simpl; [reflexivity|].
  destruct l0 as [|id0]; simpl.
  - rewrite andb_false_r. simpl. now rewrite IH.
  - rewrite andb_false_r. simpl.
    destruct (negb ((e0 =? ev') && Nat.eqb id0 id)); simpl; [|exact IH].
    now rewrite andb_false_r, IH.
Qed.

Lemma fired_cases s :
  goalsPromise s = Pending \/ goalsPromise s = Fulfilled VUndefined ->
  goalsPromise s = (if fired s then Fulfilled VUndefined else Pending).
Proof. unfold fired. now intros [-> | ->]. Qed.

Lemma emit_goals_ok s :
  signal_ok fresh s ->
  signal_ok fresh (emitter_emit onGoals goalsEvent s)
  /\ fired (emitter_emit onGoals goalsEvent s) = true.
Proof.
  intros [Hid [Hp [Hreg Hother]]]. unfold emitter_emit.
  destruct (emit_fold goalsEvent (listeners s) s) as [Hid' [Hp' [_ Hincl]]].
  cbv zeta in *.
  assert (E : goalsPromise
                (fold_left (fun s el => if fst el =? goalsEvent
                                        then run_listener onGoals (snd el) s else s)
                           (listeners s) s) = Fulfilled VUndefined).
  { rewrite Hp'. destruct Hp as [Hp | Hp].
    - rewrite (Hreg Hp), Hp. reflexivity.
    - rewrite Hp. now destruct (has_goals_listener goalsEvent (listeners s)). }
  split; [|unfold fired; now rewrite E].
  repeat split.
  - congruence.
  - now right.
  - rewrite E. discriminate.
  - intros ev Hev. eapply has_goals_listener_incl; [exact Hincl | now apply Hother].
Qed.

Lemma step_ok s e :
  signal_ok fresh s ->
  signal_ok fresh (step on_result onGoals s e)
  /\ fired (step on_result onGoals s e) = fired s || emits_goals e.
Proof.
  intros Hs. destruct e as [|ev|ev id|ev id]; simpl.
  - destruct (emit_goals_ok s Hs) as [Hok Hf]. split; [exact Hok|].
    rewrite Hf. now rewrite orb_true_r.
  - destruct (ev =? goalsEvent) eqn:E.
    + apply String.eqb_eq in E. subst ev.
      destruct (emit_goals_ok s Hs) as [Hok Hf]. split; [exact Hok|].
      rewrite Hf. now rewrite orb_true_r.
    + destruct Hs as [Hid [Hp [Hreg Hother]]]. unfold emitter_emit.
      destruct (emit_fold ev (listeners s) s) as [Hid' [Hp' [Hl' _]]].
      cbv zeta in *. rewrite (Hother ev E) in *. specialize (Hl' eq_refl).
      rewrite orb_false_r. split; [|unfold fired; now rewrite Hp'].
      unfold signal_ok. rewrite Hid', Hp', Hl'. auto.
  - destruct Hs as [Hid [Hp [Hreg Hother]]]. rewrite orb_false_r. split; [|reflexivity].
    unfold signal_ok. simpl. repeat split; auto.
    + intros H. rewrite has_goals_listener_app, (Hreg H). reflexivity.
    + intros ev' H. rewrite has_goals_listener_app, (Hother ev' H). simpl.
      now rewrite andb_false_r.
  - destruct Hs as [Hid [Hp [Hreg Hother]]]. rewrite orb_false_r. split; [|reflexivity].
    unfold signal_ok, emitter_off. simpl. repeat split; auto.
    + intros H. rewrite has_goals_listener_off. now apply Hreg.
    + intros ev' H. rewrite has_goals_listener_off. now apply Hother.
Qed.

Lemma run_ok tr : forall s,
  signal_ok fresh s ->
  signal_ok fresh (run on_result onGoals s tr)
  /\ fired (run on_result onGoals s tr) = fired s || existsb emits_goals tr.
Proof.
  induction tr as [|e tr IH]; intros s Hs.
  - simpl. now rewrite orb_false_r.
  - change (run on_result onGoals s (e :: tr))
      with (run on_result onGoals (step on_result onGoals s e) tr).
    destruct (step_ok s e Hs) as [Hs' Hf'].
    destruct (IH _ Hs') as [Hr Hfr]. split; [exact Hr|].
    rewrite Hfr, Hf'. simpl. now rewrite orb_assoc.
Qed.

Lemma trajectory_firings tr : forall s,
  signal_ok fresh s ->
  firings (fired s) (trajectory on_result onGoals s tr) =
  (if negb (fired s) && existsb emits_goals tr then 1 else 0)%nat.
Proof.
  induction tr as [|e tr IH]; intros s Hs; simpl.
  - now rewrite andb_false_r.
  - destruct (step_ok s e Hs) as [Hs' Hf'].
    rewrite (IH _ Hs'), Hf'.
    now destruct (fired s), (emits_goals e), (existsb emits_goals tr).
Qed.

Lemma trajectory_resets tr : forall s,
  signal_ok fresh s ->
  resets (fired s) (trajectory on_result onGoals s tr) = O.
Proof.
  induction tr as [|e tr IH]; intros s Hs; simpl; [reflexivity|].
  destruct (step_ok s e Hs) as [Hs' Hf'].
  rewrite (IH _ Hs'), Hf'.
  now destruct (fired s), (emits_goals e).
Qed.

Lemma wait_ok s :
  signal_ok fresh s ->
  waitUntilGoalsReady s = (fresh, if fired s then Fulfilled VUndefined else Pending).
Proof.
  intros [Hid [Hp _]]. unfold waitUntilGoalsReady. now rewrite Hid, (fired_cases s Hp).
Qed.

Lemma trajectory_wait tr : forall s,
  signal_ok fresh s ->
  Forall (fun s' => waitUntilGoalsReady s' =
                    (fresh, if fired s' then Fulfilled VUndefined else Pending))
         (trajectory on_result onGoals s tr).
Proof.
  induction tr as [|e tr IH]; intros s Hs; simpl; constructor.
  - apply wait_ok. now apply step_ok.
  - apply IH. now apply step_ok.
Qed.

Lemma repeat_emit_run n : forall s,
  repeat_emit n onGoals s = run on_result onGoals s (repeat ReadyCallback n).
Proof. induction n as [|n IH]; intros s; simpl; [reflexivity | apply IH]. Qed.

Lemma existsb_repeat_ready n :
  existsb emits_goals (repeat ReadyCallback n) = (0 <? n)%nat.
Proof. now destruct n. Qed.

Lemma registered_ok (registered : list (string * nat)) :
  signal_ok fresh {| listeners := map foreign registered ++ [(goalsEvent, OnGoals)];
               goalsPromise_id := fresh;
               goalsPromise := Pending |}.
Proof.
  assert (Hf : forall ev, has_goals_listener ev (map foreign registered) = false).
  { intros ev. induction registered as [|[e id] l IH]; simpl; [reflexivity|].
    now rewrite andb_false_r. }
  unfold signal_ok. simpl. repeat split; auto.
  - intros _. rewrite has_goals_listener_app, Hf. reflexivity.
  - intros ev Hev. rewrite has_goals_listener_app, Hf.
    unfold has_goals_listener. cbn [existsb fst snd listener_eqb orb].
    rewrite String.eqb_sym, Hev. reflexivity.
Qed.

End Readiness.

Lemma initialize_goals_ok on_result n h fetchGoals registered fresh :
  let init := initialize_goals on_result n h fetchGoals (map foreign registered) fresh in
  fst init = on_result OnGoals
  /\ signal_ok fresh (snd init)
  /\ fired (snd init) = (if hasDOM h && truthy fetchGoals then (0 <? n)%nat else true).
Proof.
  unfold initialize_goals, emitter_on, with_listeners. simpl.
  pose proof (registered_ok fresh registered) as Hreg.
  destruct (hasDOM h && truthy fetchGoals); simpl; (split; [reflexivity|]).
  - rewrite (repeat_emit_run on_result).
    destruct (run_ok on_result (on_result OnGoals) fresh (repeat ReadyCallback n) _ Hreg)
      as [Hok Hf].
    split; [exact Hok|]. rewrite Hf. simpl. apply existsb_repeat_ready.
  - now apply emit_goals_ok.
Qed.

(** C6: the promise of line 39 starts pending and is fulfilled at most once,
    never to become pending again.  Without a DOM or with [fetchGoals] off,
    [initialize] itself fires it; otherwise it fires when the goal manager
    invokes its callback, during construction or later.  Along any run it
    fires exactly once if it fires at all, and [waitUntilGoalsReady] always
    returns that one promise, fulfilled from the firing on. *)
Theorem goalsReady_fires_once (on_result : listener -> option listener)
    (sync_callbacks : nat) (h : host) (fetchGoals : value)
    (registered : list (string * nat)) (fresh : nat) (tr : list event) :
  let init := initialize_goals on_result sync_callbacks h fetchGoals
                (map foreign registered) fresh in
  let onGoals := fst init in
  let s0 := snd init in
  let states := s0 :: trajectory on_result onGoals s0 tr in
  let final := run on_result onGoals s0 tr in
  fired s0 = (if hasDOM h && truthy fetchGoals then (0 <? sync_callbacks)%nat else true)
  /\ fired final = fired s0 || existsb emits_goals tr
  /\ firings false states = (if fired final then 1 else 0)%nat
  /\ resets false states = O
  /\ Forall (fun s => waitUntilGoalsReady s =
                      (fresh, if fired s then Fulfilled VUndefined else Pending)) states.
Proof.
  destruct (initialize_goals_ok on_result sync_callbacks h fetchGoals registered fresh)
    as [_ [Hok Hf]].
  cbv zeta in *.
  set (init := initialize_goals on_result sync_callbacks h fetchGoals
                 (map foreign registered) fresh) in *.
  destruct (run_ok on_result (fst init) fresh tr _ Hok) as [_ Hfinal].
  split; [exact Hf|]. split; [exact Hfinal|]. split; [|split].
  - simpl. rewrite (trajectory_firings on_result (fst init) fresh tr _ Hok), Hfinal.
    now destruct (fired (snd init)), (existsb emits_goals tr).
  - simpl. apply (trajectory_resets on_result (fst init) fresh tr _ Hok).
  - constructor.
    + now apply wait_ok.
    + now apply trajectory_wait.
Qed.

(** ** Fields that outlive a missing capability *)

(** C3, as stated, fails on node.js without any of the probed APIs: there is
    no [Image], and the descriptor still carries [httpFallbackPing]. *)
Lemma omission_fails_for_httpFallbackPing :
  ~ (exists d, makeBrowserPlatform "3.0.0" bare_node VUndefined = Ret d
               /\ omits_missing_capabilities (global_object bare_node) d).
Proof.
  intros [d [Hd Homit]].
  vm_compute in Hd. inversion Hd. subst d. clear Hd.
  specialize (Homit "Image" "httpFallbackPing" (or_introl eq_refl) eq_refl).
  vm_compute in Homit. discriminate Homit.
Qed.

Lemma makeBrowserPlatform_capabilities_witness :
  declares_global bundled_page = true
  /\ accessors_ok (global_object bundled_page) = true
  /\ exists d, makeBrowserPlatform "3.0.0" bundled_page VUndefined = Ret d
               /\ field "localStorage" d = Some (PVal VNull)
               /\ field "httpFallbackPing" d = Some (PFun HttpFallbackPing).
Proof.
  split; [reflexivity|]. split; [reflexivity|].
  destruct (makeBrowserPlatform_capabilities "3.0.0" bundled_page VUndefined
              VUndefined VUndefined eq_refl eq_refl)
    as [d [Hd [_ [_ [_ [_ [Hnull [_ [_ [Hping _]]]]]]]]]].
  exists d. split; [exact Hd|]. split; [|exact Hping].
  apply Hnull. now exists (HostError "SecurityError").
Defined.

(** * Further properties of the code *)

(** ** [httpAllowsPost]: what it answers and what it keeps *)

Lemma probe_cors_boolean h v :
  probe_cors h = Ret (Some v) -> exists b, v = VBool b.
Proof.
  unfold probe_cors.
  destruct (GLOBAL h) as [G|e]; [|discriminate]. simpl.
  destruct (get G "XMLHttpRequest") as [x|e]; [|discriminate]. simpl.
  destruct (truthy x) eqn:Tx.
  - destruct (construct x) as [o|e]; [|discriminate]. simpl.
    destruct (has_property "withCredentials" o) as [b|e]; [|discriminate]. simpl.
    intros H. inversion H. now exists b.
  - destruct (get G "fetch") as [f|e]; [|discriminate]. simpl.
    destruct (truthy f); intros H; inversion H. now exists true.
Qed.

Lemma httpAllowsPost_step_boolean h st r st' :
  (hasCors st = VUndefined \/ exists b, hasCors st = VBool b) ->
  httpAllowsPost h st = (r, st') ->
  (hasCors st' = VUndefined \/ exists b, hasCors st' = VBool b)
  /\ (forall v, r = Ret v -> v = VUndefined \/ exists b, v = VBool b).
Proof.
  intros Hinv. unfold httpAllowsPost.
  destruct Hinv as [Hu | [b Hb]].
  - rewrite Hu. simpl.
    destruct (probe_cors h) as [[w|]|e] eqn:Ep; intros H; inversion H; subst; clear H.
    + destruct (probe_cors_boolean _ _ Ep) as [b ->]. split.
      * right. now exists b.
      * intros v Hv. inversion Hv. right. now exists b.
    + split; [now left|]. intros v Hv. inversion Hv. now left.
    + split; [now left|]. intros v Hv. discriminate Hv.
  - rewrite Hb. simpl. intros H. inversion H; subst; clear H. split.
    + right. now exists b.
    + intros v Hv. inversion Hv. right. now exists b.
Qed.

(** Whatever the hosts of successive calls look like, [httpAllowsPost] only
    ever answers [undefined], [true] or [false], and the memo cell only ever
    holds one of these. *)
Theorem httpAllowsPost_answers_boolean_or_undefined (hosts : list host) :
  Forall (fun r => forall v, r = Ret v -> v = VUndefined \/ exists b, v = VBool b)
         (fst (allowsPost_calls hosts initial_store))
  /\ (hasCors (snd (allowsPost_calls hosts initial_store)) = VUndefined
      \/ exists b, hasCors (snd (allowsPost_calls hosts initial_store)) = VBool b).
Proof.
  assert (G : forall st,
    (hasCors st = VUndefined \/ exists b, hasCors st = VBool b) ->
    Forall (fun r => forall v, r = Ret v -> v = VUndefined \/ exists b, v = VBool b)
           (fst (allowsPost_calls hosts st))
    /\ (hasCors (snd (allowsPost_calls hosts st)) = VUndefined
        \/ exists b, hasCors (snd (allowsPost_calls hosts st)) = VBool b)).
  { induction hosts as [|h hosts IH]; intros st Hst; simpl.
    - split; [constructor | exact Hst].
    - destruct (httpAllowsPost h st) as [r st1] eqn:E1.
      destruct (httpAllowsPost_step_boolean h st r st1 Hst E1) as [Hst1 Hr].
      destruct (IH st1 Hst1) as [Hall Hfin].
      destruct (allowsPost_calls hosts st1) as [rs st2]. simpl in *.
      split; [constructor; assumption | exact Hfin]. }
  apply G. now left.
Qed.

(** A call of [httpAllowsPost] that throws (the host's [XMLHttpRequest]
    cannot be constructed) memoizes nothing: the store is as before, and the
    cell is still unfilled, so the next call probes again. *)
Theorem httpAllowsPost_failure_not_memoized (h : host) (st st' : store) (e : exn) :
  httpAllowsPost h st = (Throw e, st') ->
  st' = st /\ hasCors st = VUndefined.
Proof.
  unfold httpAllowsPost.
  destruct (strict_equal (hasCors st) VUndefined) eqn:Hs.
  - destruct (probe_cors h) as [[w|]|e0]; intros H; inversion H; subst.
    split; [reflexivity | now apply strict_equal_undefined].
  - intros H. inversion H.
Qed.

Lemma httpAllowsPost_failure_not_memoized_witness :
  httpAllowsPost broken_xhr_host initial_store = (Throw (HostError "blocked"), initial_store)
  /\ initial_store = initial_store /\ hasCors initial_store = VUndefined.
Proof.
  split; [reflexivity|].
  exact (httpAllowsPost_failure_not_memoized broken_xhr_host initial_store initial_store
           (HostError "blocked") eq_refl).
Defined.

(** ** The fetch strategy: which failures reach the caller *)

(** When the host's [fetch] throws, the fetch strategy throws.  When it
    returns a promise, so does the strategy: pending or rejected as [fetch]'s
    is, and for a response whose [text()] returns a promise fulfilled with
    [undefined], also when that promise is rejected.  When it returns
    anything else, the strategy calls that value's own [then] and returns
    what it returns (a TypeError when there is none). *)
Theorem httpRequest_fetch_outcome (h : host) (method url headers body : value)
    (G : list (string * completion value)) (f : value) :
  GLOBAL h = Ret G ->
  get G "fetch" = Ret f ->
  match call f with
  | Throw e => httpRequest_fetch h method url headers body = Throw e
  | Ret (VPromise Pending) =>
      httpRequest_fetch h method url headers body = Ret (VPromise Pending)
  | Ret (VPromise (Rejected reason)) =>
      httpRequest_fetch h method url headers body = Ret (VPromise (Rejected reason))
  | Ret (VPromise (Fulfilled res)) =>
      (exists s, httpRequest_fetch h method url headers body = Ret (VPromise s)
                 /\ (s = Fulfilled VUndefined \/ exists e, s = Rejected (VError e)))
      /\ (forall t q, get_prop res "text" = Ret t -> call t = Ret (VPromise q) ->
          httpRequest_fetch h method url headers body = Ret (VPromise (Fulfilled VUndefined)))
  | Ret p => httpRequest_fetch h method url headers body = call_method p "then"
  end.
Proof.
  intros HG Hf. unfold httpRequest_fetch. rewrite HG. simpl. rewrite Hf. simpl.
  destruct (call f) as [p|e]; simpl; [|reflexivity].
  destruct p as [| | | | | | | |[|res|reason]]; try reflexivity.
  simpl. split.
  - destruct (get_prop res "text") as [t|e]; simpl.
    + destruct (call t) as [q|e]; simpl.
      * destruct (promise_then q (fun text => uniform_response res text)) as [w|e]; simpl;
          eexists; split; try reflexivity; [now left | right; now exists e].
      * eexists; split; [reflexivity | right; now exists e].
    + eexists; split; [reflexivity | right; now exists e].
  - intros t q Ht Hq. rewrite Ht. simpl. rewrite Hq. simpl.
    now destruct q.
Qed.

Lemma httpRequest_fetch_outcome_witness :
  httpRequest_fetch offline_host (VStr "GET") (VStr "https://example.com/sdk")
    (VObject []) VUndefined = Ret (VPromise (Rejected (VStr "offline"))).
Proof.
  exact (httpRequest_fetch_outcome offline_host (VStr "GET") (VStr "https://example.com/sdk")
           (VObject []) VUndefined (global_object offline_host)
           (VFunction (Ret (VPromise (Rejected (VStr "offline")))) []) eq_refl eq_refl).
Defined.

(** ** The XMLHttpRequest strategy outside the hidden-page handler *)

(** On a freshly built descriptor, where nothing has set [synchronousFlush],
    every request through the XMLHttpRequest strategy asks the request layer
    for asynchronous delivery (argument 0), whatever [disableSyncEventPost]
    is, and leaves the store as it was. *)
Theorem httpRequest_xhr_asynchronous_by_default
    (newHttpRequest : value -> value -> value -> value -> value -> completion value)
    (disableSyncFlush : value) (reqs : list request) :
  issue_requests newHttpRequest disableSyncFlush reqs initial_store =
  (map (fun r => newHttpRequest (req_method r) (req_url r) (req_headers r) (req_body r)
                   (VNum 0)) reqs,
   initial_store).
Proof.
  induction reqs as [|r reqs IH]; [reflexivity|].
  cbn [issue_requests map]. unfold httpRequest_xhr.
  change (set_synchronousFlush false initial_store) with initial_store.
  rewrite IH. reflexivity.
Qed.

(** ** What the descriptor captures from [options] and the host *)

Lemma and_then_option_of options k :
  and_then options (get_prop options k) = Ret (option_of options k).
Proof.
  unfold and_then, option_of. destruct (truthy options) eqn:To; [|reflexivity].
  now destruct options.
Qed.

Lemma install_httpRequest_exact h options ret x f :
  declares_global h = true ->
  get (global_object h) "XMLHttpRequest" = Ret x ->
  get (global_object h) "fetch" = Ret f ->
  install_httpRequest h (global_object h) options ret =
  Ret (if truthy x then
         assign "httpRequest"
           (PFun (HttpRequestXhr (option_of options "disableSyncEventPost"))) ret
       else if truthy f then assign "httpRequest" (PFun HttpRequestFetch) ret
            else ret).
Proof.
  intros Hg Hx Hf. unfold install_httpRequest.
  rewrite (global_ident_of_global h Hg). simpl. rewrite Hx. simpl.
  destruct (truthy x).
  - now rewrite and_then_option_of.
  - rewrite Hf. simpl. now destruct (truthy f).
Qed.

Lemma install_eventSource_exact G options ret es p :
  get G "EventSource" = Ret es ->
  get G "EventSourcePolyfill" = Ret p ->
  exists b : bool,
    install_eventSource G options ret =
    Ret (if truthy es then
           assign "eventSourceIsActive" (PFun EventSourceIsActive)
             (assign "eventSourceFactory" (PFun (EventSourceFactory (if b then p else es)))
                (assign "eventSourceAllowsReport" (PVal (VBool b)) ret))
         else assign "eventSourceAllowsReport" (PVal (VBool b)) ret)
    /\ (b = true ->
        truthy (option_of options "useReport") = true /\ is_function p = true
        /\ exists so m, get_prop p "supportedOptions" = Ret so
                        /\ get_prop so "method" = Ret m /\ truthy m = true).
Proof.
  intros Hes Hp. unfold install_eventSource.
  rewrite and_then_option_of. simpl. rewrite !Hp. simpl.
  destruct (truthy (option_of options "useReport")) eqn:Tu.
  - destruct (is_function p) eqn:Fp.
    + destruct (get_prop_truthy p "supportedOptions") as [so Hso]; [now destruct p|].
      rewrite Hso. simpl.
      destruct (truthy so) eqn:Ts.
      * destruct (get_prop_truthy so "method" Ts) as [m Hm].
        rewrite Hm. simpl. exists (truthy m).
        destruct (truthy m) eqn:Tm; simpl; rewrite ?Hp, ?Hes; simpl; rewrite ?Hes; simpl.
        -- split; [now destruct (truthy es)|]. intros _. repeat split; trivial.
           now exists so, m.
        -- split; [now destruct (truthy es) | discriminate].
      * simpl. exists false. rewrite !Hes. simpl.
        split; [now destruct (truthy es) | discriminate].
    + simpl. exists false. rewrite !Hes. simpl.
      split; [now destruct (truthy es) | discriminate].
  - simpl. exists false. rewrite !Hes. simpl.
    split; [now destruct (truthy es) | discriminate].
Qed.

Lemma makeBrowserPlatform_fields VERSION h options x f es p :
  declares_global h = true ->
  accessors_ok (global_object h) = true ->
  get (global_object h) "XMLHttpRequest" = Ret x ->
  get (global_object h) "fetch" = Ret f ->
  get (global_object h) "EventSource" = Ret es ->
  get (global_object h) "EventSourcePolyfill" = Ret p ->
  exists d (b : bool),
    makeBrowserPlatform VERSION h options = Ret d
    /\ field "httpRequest" d =
       (if truthy x then
          Some (PFun (HttpRequestXhr (option_of options "disableSyncEventPost")))
        else if truthy f then Some (PFun HttpRequestFetch) else None)
    /\ field "getCurrentUrl" d =
       Some (PFun (GetCurrentUrl (option_of options "eventUrlTransformer")))
    /\ field "eventSourceAllowsReport" d = Some (PVal (VBool b))
    /\ field "eventSourceFactory" d =
       (if truthy es then Some (PFun (EventSourceFactory (if b then p else es))) else None)
    /\ (b = true ->
        truthy (option_of options "useReport") = true /\ is_function p = true
        /\ exists so m, get_prop p "supportedOptions" = Ret so
                        /\ get_prop so "method" = Ret m /\ truthy m = true).
Proof.
  intros Hg Hok Hx Hf Hes Hp.
  unfold makeBrowserPlatform. rewrite (GLOBAL_of_global h Hg). simpl bind.
  rewrite (install_httpRequest_exact h options _ x f Hg Hx Hf). simpl bind.
  rewrite and_then_option_of. simpl bind.
  assert (Hls : exists r,
    forall ret, install_localStorage (global_object h) ret =
       Ret (match r with
            | Ret v => if truthy v then
                         assign "localStorage"
                           (PObj [("get", StorageGet); ("set", StorageSet);
                                  ("clear", StorageClear)]) ret
                       else ret
            | Throw _ => assign "localStorage" (PVal VNull) ret
            end)).
  { destruct (get (global_object h) "localStorage") as [v|e] eqn:E;
      [exists (Ret v) | exists (Throw e)]; intros ret;
      [now apply install_localStorage_returns
      | now apply (install_localStorage_throws _ _ e)]. }
  destruct Hls as [r Hinst]. rewrite Hinst. simpl bind.
  match goal with
  | |- context [install_eventSource (global_object h) options ?r0] =>
      destruct (install_eventSource_exact (global_object h) options r0 es p Hes Hp)
        as [b [-> Hb]]
  end.
  simpl bind.
  eexists. exists b. split; [reflexivity|].
  repeat match goal with |- _ /\ _ => split end; try exact Hb;
    destruct (truthy x), (truthy f), (truthy es), r as [v|e]; try destruct (truthy v);
    now field_simpl.
Qed.

(** With [disableSyncEventPost] set in the options, the strategy that
    [makeBrowserPlatform] installs on a host with [XMLHttpRequest] never asks
    for synchronous delivery, not even while [synchronousFlush] is set; it
    still clears the flag. *)
Theorem disableSyncEventPost_forces_asynchronous (VERSION : string) (h : host)
    (props : list (string * value)) (x disable : value) :
  declares_global h = true ->
  accessors_ok (global_object h) = true ->
  get (global_object h) "XMLHttpRequest" = Ret x ->
  truthy x = true ->
  lookup "disableSyncEventPost" props = Some disable ->
  truthy disable = true ->
  exists d,
    makeBrowserPlatform VERSION h (VObject props) = Ret d
    /\ forall newHttpRequest r st,
         platform_httpRequest newHttpRequest d h r st =
         (newHttpRequest (req_method r) (req_url r) (req_headers r) (req_body r) (VNum 0),
          set_synchronousFlush false st).
Proof.
  intros Hg Hok Hx Tx Hl Td.
  destruct (get_accessor_ok _ "fetch" Hok eq_refl) as [f Hf].
  destruct (get_accessor_ok _ "EventSource" Hok eq_refl) as [es Hes].
  destruct (get_accessor_ok _ "EventSourcePolyfill" Hok eq_refl) as [p Hp].
  destruct (makeBrowserPlatform_fields VERSION h (VObject props) x f es p
              Hg Hok Hx Hf Hes Hp) as [d [b [Hd [Hreq _]]]].
  exists d. split; [exact Hd|].
  intros nhr r st. unfold platform_httpRequest. rewrite Hreq, Tx.
  unfold option_of. simpl. rewrite Hl.
  unfold httpRequest_xhr. rewrite Td. simpl.
  now destruct (synchronousFlush st).
Qed.

Lemma disableSyncEventPost_forces_asynchronous_witness :
  exists d,
    makeBrowserPlatform "3.0.0" bundled_page
      (VObject [("disableSyncEventPost", VBool true)]) = Ret d
    /\ platform_httpRequest echo_request d bundled_page get_request
         (set_synchronousFlush true initial_store) = (Ret (VNum 0), initial_store).
Proof.
  destruct (disableSyncEventPost_forces_asynchronous "3.0.0" bundled_page
              [("disableSyncEventPost", VBool true)] xhr_constructor (VBool true)
              eq_refl eq_refl eq_refl eq_refl eq_refl eq_refl) as [d [Hd Hreq]].
  exists d. split; [exact Hd|].
  exact (Hreq echo_request get_request (set_synchronousFlush true initial_store)).
Defined.

(** Without an [eventUrlTransformer] in the options (or without options),
    the [getCurrentUrl] that [makeBrowserPlatform] installs never throws: it
    returns [location.href] where the host has a location, else [undefined]. *)
Theorem getCurrentUrl_without_transformer (VERSION : string) (h : host)
    (options loc : value) :
  declares_global h = true ->
  accessors_ok (global_object h) = true ->
  get (global_object h) "location" = Ret loc ->
  truthy (option_of options "eventUrlTransformer") = false ->
  exists d url,
    makeBrowserPlatform VERSION h options = Ret d
    /\ platform_getCurrentUrl d h = Ret url
    /\ (truthy loc = false -> url = VUndefined)
    /\ (truthy loc = true -> get_prop loc "href" = Ret url).
Proof.
  intros Hg Hok Hloc Ht.
  destruct (get_accessor_ok _ "XMLHttpRequest" Hok eq_refl) as [x Hx].
  destruct (get_accessor_ok _ "fetch" Hok eq_refl) as [f Hf].
  destruct (get_accessor_ok _ "EventSource" Hok eq_refl) as [es Hes].
  destruct (get_accessor_ok _ "EventSourcePolyfill" Hok eq_refl) as [p Hp].
  destruct (makeBrowserPlatform_fields VERSION h options x f es p
              Hg Hok Hx Hf Hes Hp) as [d [b [Hd [_ [Hurl _]]]]].
  exists d. unfold platform_getCurrentUrl. rewrite Hurl.
  unfold getCurrentUrl. rewrite (GLOBAL_of_global h Hg). simpl. rewrite !Hloc. simpl.
  rewrite Ht.
  destruct (truthy loc) eqn:Tl.
  - destruct (get_prop_truthy loc "href" Tl) as [url Hhref].
    exists url. rewrite Hhref. repeat split; trivial. discriminate.
  - exists VUndefined. repeat split; trivial. discriminate.
Qed.

Lemma getCurrentUrl_without_transformer_witness :
  exists d url,
    makeBrowserPlatform "3.0.0" bundled_page VUndefined = Ret d
    /\ platform_getCurrentUrl d bundled_page = Ret url
    /\ url = VUndefined.
Proof.
  destruct (getCurrentUrl_without_transformer "3.0.0" bundled_page VUndefined VUndefined
              eq_refl eq_refl eq_refl eq_refl) as [d [url [Hd [Hc [Hu _]]]]].
  exists d, url. split; [exact Hd|]. split; [exact Hc|]. now apply Hu.
Defined.

(** The stream constructor the descriptor captures: [eventSourceAllowsReport]
    is always a boolean; it is [true] only if [useReport] was asked for and
    the host's [EventSourcePolyfill] is a function that advertises
    [supportedOptions.method].  The factory, present exactly when the host
    has a native [EventSource], constructs the polyfill when the flag is
    [true] and the native [EventSource] otherwise. *)
Theorem eventSource_constructor_selection (VERSION : string) (h : host)
    (options es p : value) :
  declares_global h = true ->
  accessors_ok (global_object h) = true ->
  get (global_object h) "EventSource" = Ret es ->
  get (global_object h) "EventSourcePolyfill" = Ret p ->
  exists d (b : bool),
    makeBrowserPlatform VERSION h options = Ret d
    /\ field "eventSourceAllowsReport" d = Some (PVal (VBool b))
    /\ field "eventSourceFactory" d =
       (if truthy es then Some (PFun (EventSourceFactory (if b then p else es))) else None)
    /\ (b = true ->
        truthy (option_of options "useReport") = true /\ is_function p = true
        /\ exists so m, get_prop p "supportedOptions" = Ret so
                        /\ get_prop so "method" = Ret m /\ truthy m = true).
Proof.
  intros Hg Hok Hes Hp.
  destruct (get_accessor_ok _ "XMLHttpRequest" Hok eq_refl) as [x Hx].
  destruct (get_accessor_ok _ "fetch" Hok eq_refl) as [f Hf].
  destruct (makeBrowserPlatform_fields VERSION h options x f es p
              Hg Hok Hx Hf Hes Hp) as [d [b [Hd [_ [_ [Hb [Hfac Hrep]]]]]]].
  now exists d, b.
Qed.

Lemma eventSource_constructor_selection_witness :
  exists d (b : bool),
    makeBrowserPlatform "3.0.0" polyfill_host (VObject [("useReport", VBool true)]) = Ret d
    /\ field "eventSourceAllowsReport" d = Some (PVal (VBool b)).
Proof.
  destruct (eventSource_constructor_selection "3.0.0" polyfill_host
              (VObject [("useReport", VBool true)]) _ _ eq_refl eq_refl eq_refl eq_refl)
    as [d [b [Hd [Hb _]]]].
  now exists d, b.
Defined.

Example eventSource_polyfill_selected :
  (d <- makeBrowserPlatform "3.0.0" polyfill_host (VObject [("useReport", VBool true)]) ;;
   Ret (field "eventSourceAllowsReport" d, field "eventSourceFactory" d)) =
  Ret (Some (PVal (VBool true)),
       Some (PFun (EventSourceFactory
                     (VFunction (Ret (VObject [("readyState", VNum 0)]))
                        [("supportedOptions", VObject [("method", VBool true)])])))).
Proof. reflexivity. Qed.

(** ** Do-Not-Track: the navigator's flag shadows the others *)

(** Once [navigator.doNotTrack] is defined (anything but [undefined], so
    [null] and 'unspecified' count), it alone decides: [msDoNotTrack] and the
    global [doNotTrack] are not consulted, not even read. *)
Theorem isDoNotTrack_navigator_flag_decides (h : host)
    (G : list (string * completion value)) (nav flag : value) :
  GLOBAL h = Ret G ->
  get G "navigator" = Ret nav ->
  truthy nav = true ->
  get_prop nav "doNotTrack" = Ret flag ->
  strict_equal flag VUndefined = false ->
  isDoNotTrack h = Ret (VBool (dnt_enabled flag)).
Proof.
  intros HG Hnav Tn Hflag Hdef.
  unfold isDoNotTrack, and_then. rewrite HG. simpl. rewrite !Hnav. simpl.
  rewrite Tn, Hflag. simpl. rewrite Hdef. simpl. rewrite ?Hflag. reflexivity.
Qed.

Lemma isDoNotTrack_navigator_flag_decides_witness :
  isDoNotTrack mixed_dnt_host = Ret (VBool false).
Proof.
  exact (isDoNotTrack_navigator_flag_decides mixed_dnt_host (global_object mixed_dnt_host)
           (VObject [("doNotTrack", VStr "0")]) (VStr "0")
           eq_refl eq_refl eq_refl eq_refl eq_refl).
Defined.

(** ** Storage: failures become rejections *)

(** When storage has gone since the descriptor was built (reading
    [localStorage] throws, or yields a falsy value), [get], [set] and [clear]
    return rejected promises. *)
Theorem storage_unavailable_rejects (h : host) (G : list (string * completion value))
    (key item : value) :
  GLOBAL h = Ret G ->
  match get G "localStorage" with
  | Ret ls => truthy ls = false
  | Throw _ => True
  end ->
  (exists r, storage_get h key = VPromise (Rejected r))
  /\ (exists r, storage_set h key item = VPromise (Rejected r))
  /\ (exists r, storage_clear h key = VPromise (Rejected r)).
Proof.
  intros HG Hls. unfold storage_get, storage_set, storage_clear, new_promise.
  rewrite HG. simpl.
  destruct (get G "localStorage") as [ls|e]; simpl.
  - destruct ls; simpl in *; try discriminate;
      repeat split; eexists; reflexivity.
  - repeat split; eexists; reflexivity.
Qed.

Lemma storage_unavailable_rejects_witness :
  exists r, storage_get bundled_page (VStr "ld:user") = VPromise (Rejected r).
Proof.
  exact (proj1 (storage_unavailable_rejects bundled_page (global_object bundled_page)
                  (VStr "ld:user") VUndefined eq_refl I)).
Defined.

(** When [getItem] returns a string or [null] (any value that is no
    object), [get] delivers it as it is: [null] for a missing key stays
    [null].  [set] and [clear] deliver nothing: their promise is never
    fulfilled with anything but [undefined], whatever the host's [setItem]
    and [removeItem] return. *)
Theorem storage_results (h : host) (G : list (string * completion value))
    (ls getItem key item stored : value) :
  GLOBAL h = Ret G ->
  get G "localStorage" = Ret ls ->
  get_prop ls "getItem" = Ret getItem ->
  call getItem = Ret stored ->
  is_object stored = false ->
  storage_get h key = VPromise (Fulfilled stored)
  /\ (forall v, storage_set h key item = VPromise (Fulfilled v) -> v = VUndefined)
  /\ (forall v, storage_clear h key = VPromise (Fulfilled v) -> v = VUndefined).
Proof.
  intros HG Hls Hget Hcall Hprim.
  unfold storage_get, storage_set, storage_clear, new_promise.
  rewrite HG. simpl. rewrite Hls. simpl. rewrite Hget. simpl. rewrite Hcall.
  split; [|split].
  - now destruct stored.
  - destruct (get_prop ls "setItem") as [f|e]; simpl; [|discriminate].
    destruct (call f) as [w|e]; simpl; [|discriminate].
    intros v Hv. now inversion Hv.
  - destruct (get_prop ls "removeItem") as [f|e]; simpl; [|discriminate].
    destruct (call f) as [w|e]; simpl; [|discriminate].
    intros v Hv. now inversion Hv.
Qed.

Lemma storage_results_witness :
  storage_get empty_storage_host (VStr "ld:user") = VPromise (Fulfilled VNull).
Proof.
  exact (proj1 (storage_results empty_storage_host (global_object empty_storage_host)
                  (VObject [("getItem", VFunction (Ret VNull) [])])
                  (VFunction (Ret VNull) []) (VStr "ld:user") VUndefined VNull
                  eq_refl eq_refl eq_refl eq_refl eq_refl)).
Defined.

(** ** The options handed to the stream constructor *)

Lemma lookup_set_prop_same k v props : lookup k (set_prop k v props) = Some v.
Proof.
  induction props as [|[k' v'] props IH]; simpl.
  - now rewrite String.eqb_refl.
  - destruct (k' =? k) eqn:E; simpl; [now rewrite String.eqb_refl | now rewrite E].
Qed.

Lemma lookup_set_prop_other k k' v props :
  (k' =? k) = false -> lookup k (set_prop k' v props) = lookup k props.
Proof.
  intros Hne. induction props as [|[k0 v0] props IH]; simpl.
  - now rewrite Hne.
  - destruct (k0 =? k') eqn:E; simpl.
    + apply String.eqb_eq in E. subst k0. now rewrite Hne.
    + now rewrite IH.
Qed.

Lemma lookup_filter_other (k k0 : string) (l : list (string * value)) :
  lookup k (filter (fun kv => negb (fst kv =? k0)) l) =
  if k0 =? k then None else lookup k l.
Proof.
  induction l as [|[k1 v1] l IH]; simpl.
  - now destruct (k0 =? k).
  - destruct (k1 =? k0) eqn:E10; simpl.
    + rewrite IH. apply String.eqb_eq in E10. subst k1.
      now destruct (k0 =? k).
    + rewrite IH. destruct (k1 =? k) eqn:E1; [|reflexivity].
      apply String.eqb_eq in E1. subst k1.
      rewrite String.eqb_sym in E10. now rewrite E10.
Qed.

Lemma lookup_own_props k props : lookup k (own_props props) = lookup k props.
Proof.
  induction props as [|[k0 v0] props IH]; simpl; [reflexivity|].
  destruct (k0 =? k) eqn:E; [reflexivity|].
  now rewrite lookup_filter_other, E.
Qed.

Lemma in_keys_filter (f : string * value -> bool) k (l : list (string * value)) :
  In k (map fst (filter f l)) -> In k (map fst l).
Proof.
  intros H. apply in_map_iff in H as [[k' v] [Hk Hin]].
  apply filter_In in Hin as [Hin _]. apply in_map_iff. now exists (k', v).
Qed.

Lemma nodup_keys_filter (f : string * value -> bool) (l : list (string * value)) :
  NoDup (map fst l) -> NoDup (map fst (filter f l)).
Proof.
  induction l as [|[k v] l IH]; simpl; intros H; [constructor|].
  inversion H as [|? ? Hnotin Hnd]; subst.
  destruct (f (k, v)); simpl; [|now apply IH].
  constructor; [|now apply IH].
  intros Hin. apply Hnotin. now apply in_keys_filter in Hin.
Qed.

Lemma own_props_nodup props : NoDup (map fst (own_props props)).
Proof.
  induction props as [|[k v] props IH]; simpl; constructor.
  - intros Hin. apply in_map_iff in Hin as [[k' v'] [Hk Hin]].
    apply filter_In in Hin as [_ Hne]. simpl in *. subst k'.
    now rewrite String.eqb_refl in Hne.
  - now apply nodup_keys_filter.
Qed.

Lemma lookup_not_in k (l : list (string * value)) :
  ~ In k (map fst l) -> lookup k l = None.
Proof.
  induction l as [|[k0 v0] l IH]; simpl; intros H; [reflexivity|].
  destruct (k0 =? k) eqn:E.
  - apply String.eqb_eq in E. exfalso. apply H. now left.
  - apply IH. intros Hin. apply H. now right.
Qed.

Lemma spread_fold_lookup (src : list (string * value)) : forall acc k,
  NoDup (map fst src) ->
  lookup k (fold_left (fun acc kv => set_prop (fst kv) (snd kv) acc) src acc) =
  match lookup k src with
  | Some v => Some v
  | None => lookup k acc
  end.
Proof.
  induction src as [|[k0 v0] src IH]; intros acc k Hnd; simpl; [reflexivity|].
  inversion Hnd as [|? ? Hnotin Hnd']; subst.
  rewrite (IH _ k Hnd').
  destruct (k0 =? k) eqn:E.
  - apply String.eqb_eq in E. subst k0.
    now rewrite (lookup_not_in k src Hnotin), lookup_set_prop_same.
  - now rewrite lookup_set_prop_other by exact E.
Qed.

Lemma spread_lookup target v k :
  lookup k (spread target v) =
  match lookup k (spreadable v) with
  | Some x => Some x
  | None => lookup k target
  end.
Proof.
  unfold spread. apply spread_fold_lookup.
  unfold spreadable. destruct v; try constructor; apply own_props_nodup.
Qed.

(** In the options the stream constructor receives, every property the
    caller supplied has the caller's value, also [heartbeatTimeout],
    [silentTimeout] and [skipDefaultHeaders]; those three default to 300000,
    300000 and [true]; nothing else is added. *)
Theorem esOptions_caller_overrides_defaults (props : list (string * value)) (k : string) :
  get_prop (esOptions (VObject props)) k =
  Ret (match lookup k props with
       | Some v => v
       | None =>
           if k =? "heartbeatTimeout" then VNum 300000
           else if k =? "silentTimeout" then VNum 300000
           else if k =? "skipDefaultHeaders" then VBool true
           else VUndefined
       end).
Proof.
  unfold esOptions. simpl get_prop.
  rewrite spread_lookup. simpl spreadable. rewrite lookup_own_props.
  destruct (lookup k props) as [v|]; [reflexivity|].
  change (spread [] (VObject defaultOptions)) with defaultOptions.
  unfold defaultOptions, timeoutMillis. cbn [lookup].
  rewrite (String.eqb_sym "heartbeatTimeout"), (String.eqb_sym "silentTimeout"),
    (String.eqb_sym "skipDefaultHeaders").
  now destruct (k =? "heartbeatTimeout"), (k =? "silentTimeout"),
    (k =? "skipDefaultHeaders").
Qed.

(** Called without options ([undefined], [null], a boolean or a number), the
    factory hands the constructor exactly the three defaults. *)
Theorem esOptions_without_options (options : value) :
  is_object options = false ->
  (forall s, options <> VStr s) ->
  esOptions options =
  VObject [("heartbeatTimeout", VNum 300000);
           ("silentTimeout", VNum 300000);
           ("skipDefaultHeaders", VBool true)].
Proof.
  intros Ho Hs. destruct options; try discriminate; try reflexivity.
  now destruct (Hs s).
Qed.

Lemma esOptions_without_options_witness :
  esOptions VUndefined =
  VObject [("heartbeatTimeout", VNum 300000);
           ("silentTimeout", VNum 300000);
           ("skipDefaultHeaders", VBool true)].
Proof.
  refine (esOptions_without_options VUndefined eq_refl _).
  intros s Hs. discriminate Hs.
Defined.

(** ** [eventSourceIsActive] *)

(** On a host whose [EventSource] has the standard constants (CONNECTING 0,
    OPEN 1), a stream is active exactly when its [readyState] is 0 or 1; a
    closed stream (2) and one without [readyState] are not. *)
Theorem eventSourceIsActive_iff_open_or_connecting (h : host)
    (G : list (string * completion value)) (ES es rs : value) :
  GLOBAL h = Ret G ->
  get G "EventSource" = Ret ES ->
  get_prop ES "OPEN" = Ret (VNum 1) ->
  get_prop ES "CONNECTING" = Ret (VNum 0) ->
  get_prop es "readyState" = Ret rs ->
  exists b, eventSourceIsActive h es = Ret (VBool b)
            /\ (b = true <-> rs = VNum 1 \/ rs = VNum 0).
Proof.
  intros HG HES Hopen Hconn Hrs. unfold eventSourceIsActive.
  rewrite HG. simpl. rewrite !Hrs. simpl. rewrite !HES. simpl.
  rewrite Hopen, Hconn. simpl.
  destruct (strict_equal rs (VNum 1)) eqn:E1.
  - exists true. split; [reflexivity|]. split; [|reflexivity]. intros _. left.
    destruct rs; simpl in E1; try discriminate. apply Z.eqb_eq in E1. now subst.
  - simpl. exists (strict_equal rs (VNum 0)). split; [reflexivity|]. split.
    + intros E0. right. destruct rs; simpl in E0; try discriminate.
      apply Z.eqb_eq in E0. now subst.
    + intros [-> | ->]; [discriminate E1 | reflexivity].
Qed.

Lemma eventSourceIsActive_iff_open_or_connecting_witness :
  exists b, eventSourceIsActive polyfill_host (VObject [("readyState", VNum 2)]) =
            Ret (VBool b)
            /\ (b = true <-> VNum 2 = VNum 1 \/ VNum 2 = VNum 0).
Proof.
  exact (eventSourceIsActive_iff_open_or_connecting polyfill_host
           (global_object polyfill_host) _ (VObject [("readyState", VNum 2)]) (VNum 2)
           eq_refl eq_refl eq_refl eq_refl eq_refl).
Defined.

(** ** The hidden-page handler when [flush] misbehaves *)

(** The handler has no [finally]: when [flush] throws, or returns a value
    that is no promise and whose own [catch] is missing or throws, the
    handler throws that error and does not clear [synchronousFlush]; the
    store stays as [flush] left it. *)
Theorem syncFlush_failure_leaves_flag (core : Type)
    (flush : core * store -> completion value * (core * store))
    (w w' : core * store) (r : completion value) (e : exn) :
  flush (fst w, set_synchronousFlush true (snd w)) = (r, w') ->
  match r with
  | Throw thrown => thrown = e
  | Ret v => (forall s, v <> VPromise s) /\ call_method v "catch" = Throw e
  end ->
  syncFlush core flush w = (Throw e, w').
Proof.
  intros Hflush Hr. unfold syncFlush. rewrite Hflush.
  destruct r as [v|thrown].
  - destruct Hr as [Hnp Hcatch].
    destruct v as [| | | | | | | |s];
      try (cbn [flush_and_catch bind promise_catch]; now rewrite Hcatch).
    now destruct (Hnp s).
  - simpl. now subst.
Qed.

Lemma syncFlush_failure_leaves_flag_witness :
  syncFlush unit throwing_flush (tt, initial_store) =
  (Throw (HostError "flush failed"), (tt, set_synchronousFlush true initial_store)).
Proof.
  exact (syncFlush_failure_leaves_flag unit throwing_flush (tt, initial_store)
           (tt, set_synchronousFlush true initial_store)
           (Throw (HostError "flush failed")) (HostError "flush failed") eq_refl eq_refl).
Defined.

Example syncFlush_promise_like_flush :
  syncFlush unit promise_like_flush (tt, initial_store) = (Ret VUndefined, (tt, initial_store)).
Proof. reflexivity. Qed.

Example promise_then_on_promise_like :
  promise_then (VObject [("then", VFunction (Ret (VNum 7)) [])]) (fun v => Ret v) =
  Ret (VNum 7).
Proof. reflexivity. Qed.

(** ** The hidden-page handler and the XMLHttpRequest strategy together *)

(** When the core's [flush] sends its requests through the XMLHttpRequest
    strategy, the handler makes the first of them synchronous (argument 1,
    or 0 with [disableSyncEventPost]) and every later one asynchronous, and
    the flag is clear when it returns. *)
Theorem syncFlush_first_request_synchronous (disableSyncFlush : value)
    (r : request) (rest : list request) (sent : list (completion value)) (st : store) :
  syncFlush _ (flush_requests disableSyncFlush (r :: rest)) (sent, st) =
  (Ret VUndefined,
   ((sent ++ Ret (VNum (bool_to_int32 (negb (truthy disableSyncFlush))))
          :: map (fun _ => Ret (VNum 0)) rest)%list,
    set_synchronousFlush false st)).
Proof.
  unfold syncFlush, flush_requests. simpl.
  rewrite (issue_requests_flag_cleared echo_request disableSyncFlush rest
             (set_synchronousFlush false (set_synchronousFlush true st)) eq_refl).
  simpl. unfold echo_request.
  now destruct (truthy disableSyncFlush).
Qed.

(** ** The listener behind the readiness signal *)




Lemma initialize_goals_as_run on_result n h fetchGoals registered fresh :
  snd (initialize_goals on_result n h fetchGoals (map foreign registered) fresh) =
  run on_result (on_result OnGoals)
    {| listeners := map foreign registered ++ [(goalsEvent, OnGoals)];
       goalsPromise_id := fresh;
       goalsPromise := Pending |}
    (if hasDOM h && truthy fetchGoals then repeat ReadyCallback n else [ReadyCallback]).
Proof.
  unfold initialize_goals, emitter_on, with_listeners. simpl.
  destruct (hasDOM h && truthy fetchGoals); simpl; [|reflexivity].
  apply repeat_emit_run.
Qed.

Lemma has_goals_listener_registered registered :
  has_goals_listener goalsEvent (map foreign registered ++ [(goalsEvent, OnGoals)]) = true.
Proof.
  rewrite has_goals_listener_app. simpl. now rewrite orb_true_r.
Qed.



Lemma has_goals_listener_removed ls :
  has_goals_listener goalsEvent
    (filter (fun el => negb ((fst el =? goalsEvent) && listener_eqb (snd el) OnGoals)) ls)
  = false.
Proof.
  induction ls as [|[e0 l0] ls IH]; simpl; [reflexivity|].
  destruct ((e0 =? goalsEvent) && listener_eqb l0 OnGoals) eqn:E; simpl; [exact IH|].
  now rewrite E, IH.
Qed.

Lemma emit_fold_listener_removed ev l s :
  has_goals_listener goalsEvent
    (listeners (fold_left (fun s el => if fst el =? ev
                                       then run_listener (Some OnGoals) (snd el) s else s)
                          l s)) =
  if has_goals_listener ev l then false
  else has_goals_listener goalsEvent (listeners s).
Proof.
  revert s. induction l as [|[e0 l0] l IH]; intros s; simpl; [reflexivity|].
  destruct (e0 =? ev); simpl; [|apply IH].
  destruct l0 as [|id]; simpl; [|apply IH].
  rewrite IH. simpl. rewrite has_goals_listener_removed.
  now destruct (has_goals_listener ev l).
Qed.

Lemma step_listener_removed on_result fresh s e :
  signal_ok fresh s ->
  has_goals_listener goalsEvent (listeners s) = negb (fired s) ->
  has_goals_listener goalsEvent (listeners (step on_result (Some OnGoals) s e)) =
  negb (fired (step on_result (Some OnGoals) s e)).
Proof.
  intros Hs Hj.
  destruct (step_ok on_result (Some OnGoals) fresh s e Hs) as [_ Hf]. rewrite Hf.
  destruct Hs as [Hid [Hp [Hreg Hother]]].
  assert (Hemit : has_goals_listener goalsEvent
                    (listeners (emitter_emit (Some OnGoals) goalsEvent s)) = false).
  { unfold emitter_emit. rewrite emit_fold_listener_removed, Hj.
    now destruct (has_goals_listener goalsEvent (listeners s)), (fired s). }
  destruct e as [|ev|ev id|ev id]; simpl.
  - rewrite Hemit. now rewrite orb_true_r.
  - destruct (ev =? goalsEvent) eqn:E.
    + apply String.eqb_eq in E. subst ev. rewrite Hemit. now rewrite orb_true_r.
    + unfold emitter_emit. rewrite emit_fold_listener_removed, (Hother ev E), Hj.
      now rewrite orb_false_r.
  - rewrite has_goals_listener_app, Hj. simpl. rewrite andb_false_r.
    now rewrite !orb_false_r.
  - unfold emitter_off. simpl. rewrite has_goals_listener_off, Hj.
    now rewrite orb_false_r.
Qed.

Lemma run_listener_removed on_result fresh tr : forall s,
  signal_ok fresh s ->
  has_goals_listener goalsEvent (listeners s) = negb (fired s) ->
  has_goals_listener goalsEvent (listeners (run on_result (Some OnGoals) s tr)) =
  negb (fired (run on_result (Some OnGoals) s tr)).
Proof.
  induction tr as [|e tr IH]; intros s Hs Hj; [exact Hj|].
  change (run on_result (Some OnGoals) s (e :: tr))
    with (run on_result (Some OnGoals) (step on_result (Some OnGoals) s e) tr).
  apply IH.
  - exact (proj1 (step_ok on_result (Some OnGoals) fresh s e Hs)).
  - now apply (step_listener_removed on_result fresh).
Qed.

(** When [emitter.on] does return the handler it was given, the listen-once
    works: at every moment the handler of line 40 is registered for
    [goalsReady] exactly while the signal has not fired. *)
Theorem goals_listener_removed_on_firing (on_result : listener -> option listener)
    (sync_callbacks : nat) (h : host) (fetchGoals : value)
    (registered : list (string * nat)) (fresh : nat) (tr : list event) :
  on_result OnGoals = Some OnGoals ->
  let init := initialize_goals on_result sync_callbacks h fetchGoals
                (map foreign registered) fresh in
  let final := run on_result (fst init) (snd init) tr in
  has_goals_listener goalsEvent (listeners final) = negb (fired final).
Proof.
  intros Hon init final.
  assert (Hfst : fst init = Some OnGoals).
  { unfold init, initialize_goals, emitter_on. simpl. rewrite <- Hon.
    now destruct (hasDOM h && truthy fetchGoals). }
  unfold final. rewrite Hfst. unfold init. rewrite initialize_goals_as_run, Hon.
  pose proof (registered_ok fresh registered) as Hreg.
  destruct (run_ok on_result (Some OnGoals) fresh
              (if hasDOM h && truthy fetchGoals
               then repeat ReadyCallback sync_callbacks else [ReadyCallback]) _ Hreg)
    as [Hok0 _].
  apply (run_listener_removed on_result fresh); [exact Hok0|].
  apply (run_listener_removed on_result fresh); [exact Hreg|].
  apply has_goals_listener_registered.
Qed.

Lemma goals_listener_removed_on_firing_witness :
  let init := initialize_goals (fun l => Some l) 0 browser (VBool true) [] 7 in
  let final := run (fun l => Some l) (fst init) (snd init) [ReadyCallback] in
  has_goals_listener goalsEvent (listeners final) = negb (fired final).
Proof.
  exact (goals_listener_removed_on_firing (fun l => Some l) 0 browser (VBool true) [] 7
           [ReadyCallback] eq_refl).
Defined.

(** ** What every descriptor carries *)

Lemma install_httpRequest_frame h G options ret ret' k :
  install_httpRequest h G options ret = Ret ret' ->
  ("httpRequest" =? k) = false -> field k ret' = field k ret.
Proof.
  unfold install_httpRequest. intros H Hk.
  destruct (global_ident h) as [g|e]; [|discriminate H]. simpl in H.
  destruct (get g "XMLHttpRequest") as [x|e]; [|discriminate H]. simpl in H.
  destruct (truthy x).
  - destruct (and_then_get_prop options "disableSyncEventPost") as [v Hv].
    rewrite Hv in H. simpl in H. inversion H. now apply field_assign_other.
  - destruct (get G "fetch") as [f|e]; [|discriminate H]. simpl in H.
    destruct (truthy f); inversion H; trivial. now apply field_assign_other.
Qed.

Lemma install_localStorage_frame G ret ret' k :
  install_localStorage G ret = Ret ret' ->
  ("localStorage" =? k) = false -> field k ret' = field k ret.
Proof.
  unfold install_localStorage. intros H Hk.
  destruct (get G "localStorage") as [ls|e]; simpl in H.
  - destruct (truthy ls); inversion H; trivial. now apply field_assign_other.
  - inversion H. now apply field_assign_other.
Qed.

Lemma install_eventSource_frame G options ret ret' k :
  install_eventSource G options ret = Ret ret' ->
  ("eventSourceAllowsReport" =? k) = false ->
  ("eventSourceFactory" =? k) = false ->
  ("eventSourceIsActive" =? k) = false ->
  field k ret' = field k ret.
Proof.
  unfold install_eventSource. intros H Hk1 Hk2 Hk3.
  match type of H with
  | bind ?c _ = _ => destruct c as [u|e]; [|discriminate H]
  end.
  simpl in H.
  match type of H with
  | bind ?c _ = _ => destruct c as [b|e]; [|discriminate H]
  end.
  simpl in H.
  match type of H with
  | bind ?c _ = _ => destruct c as [ctor|e]; [|discriminate H]
  end.
  simpl in H.
  destruct (get G "EventSource") as [es|e]; [|discriminate H]. simpl in H.
  destruct (truthy es); inversion H;
    repeat rewrite field_assign_other by assumption; reflexivity.
Qed.

(** Whatever the host and the options, a descriptor that
    [makeBrowserPlatform] returns starts with [synchronousFlush] false and
    carries the fixed identification: the user-agent header name, the agent
    'JSClient', and [VERSION] both as [version] and inside
    [diagnosticSdkData]. *)
Theorem makeBrowserPlatform_static_fields (VERSION : string) (h : host)
    (options : value) (d : descriptor) :
  makeBrowserPlatform VERSION h options = Ret d ->
  field "synchronousFlush" d = Some (PVal (VBool false))
  /\ field "userAgentHeaderName" d = Some (PVal (VStr "X-LaunchDarkly-User-Agent"))
  /\ field "userAgent" d = Some (PVal (VStr "JSClient"))
  /\ field "version" d = Some (PVal (VStr VERSION))
  /\ field "diagnosticSdkData" d =
     Some (PVal (VObject [("name", VStr "js-client-sdk"); ("version", VStr VERSION)]))
  /\ field "diagnosticPlatformData" d = Some (PVal (VObject [("name", VStr "JS")]))
  /\ field "diagnosticUseCombinedEvent" d = Some (PVal (VBool true)).
Proof.
  unfold makeBrowserPlatform. intros H.
  destruct (GLOBAL h) as [G|e]; [|discriminate H]. simpl bind in H.
  match type of H with
  | context [install_httpRequest h G options ?r] =>
      destruct (install_httpRequest h G options r) as [ret1|e] eqn:E1; [|discriminate H]
  end.
  simpl bind in H.
  destruct (and_then_get_prop options "eventUrlTransformer") as [t Ht].
  rewrite Ht in H. simpl bind in H.
  match type of H with
  | context [install_localStorage G ?r] =>
      destruct (install_localStorage G r) as [ret2|e] eqn:E2; [|discriminate H]
  end.
  simpl bind in H.
  destruct (install_eventSource G options ret2) as [ret3|e] eqn:E3; [|discriminate H].
  simpl bind in H. inversion H; subst d; clear H.
  assert (Hframe : forall k,
    ("httpRequest" =? k) = false -> ("httpAllowsPost" =? k) = false ->
    ("httpFallbackPing" =? k) = false -> ("getCurrentUrl" =? k) = false ->
    ("isDoNotTrack" =? k) = false -> ("localStorage" =? k) = false ->
    ("eventSourceAllowsReport" =? k) = false -> ("eventSourceFactory" =? k) = false ->
    ("eventSourceIsActive" =? k) = false ->
    field k ret3 =
    field k [("userAgentHeaderName", PVal (VStr "X-LaunchDarkly-User-Agent"));
             ("synchronousFlush", PVal (VBool false))]).
  { intros k H1 H2 H3 H4 H5 H6 H7 H8 H9.
    rewrite (install_eventSource_frame _ _ _ _ k E3 H7 H8 H9).
    rewrite (install_localStorage_frame _ _ _ k E2 H6).
    repeat rewrite field_assign_other by assumption.
    apply (install_httpRequest_frame _ _ _ _ _ k E1 H1). }
  repeat split;
    repeat first [ rewrite field_assign_same
                 | rewrite field_assign_other by reflexivity ];
    try reflexivity;
    rewrite Hframe by reflexivity; reflexivity.
Qed.

Lemma makeBrowserPlatform_static_fields_witness :
  exists d, makeBrowserPlatform "3.0.0" node18 VUndefined = Ret d
            /\ field "synchronousFlush" d = Some (PVal (VBool false)).
Proof.
  eexists. split; [reflexivity|].
  exact (proj1 (makeBrowserPlatform_static_fields "3.0.0" node18 VUndefined _ eq_refl)).
Defined.

(** ** The HTTP strategy, with and without [global] *)

(** Where the host declares [global] (node.js, a bundled page), the strategy
    is chosen by what the global object has: the XMLHttpRequest one whenever
    [XMLHttpRequest] is there, also when [fetch] is; the fetch one when only
    [fetch] is; no [httpRequest] field when neither is.  The XMLHttpRequest
    strategy captures [options && options.disableSyncEventPost]. *)
Theorem http_strategy_where_global_declared (VERSION : string) (h : host)
    (options x f : value) :
  declares_global h = true ->
  accessors_ok (global_object h) = true ->
  get (global_object h) "XMLHttpRequest" = Ret x ->
  get (global_object h) "fetch" = Ret f ->
  exists d,
    makeBrowserPlatform VERSION h options = Ret d
    /\ field "httpRequest" d =
       (if truthy x then
          Some (PFun (HttpRequestXhr (option_of options "disableSyncEventPost")))
        else if truthy f then Some (PFun HttpRequestFetch) else None).
Proof.
  intros Hg Hok Hx Hf.
  destruct (get_accessor_ok _ "EventSource" Hok eq_refl) as [es Hes].
  destruct (get_accessor_ok _ "EventSourcePolyfill" Hok eq_refl) as [p Hp].
  destruct (makeBrowserPlatform_fields VERSION h options x f es p
              Hg Hok Hx Hf Hes Hp) as [d [b [Hd [Hreq _]]]].
  now exists d.
Qed.

Lemma http_strategy_where_global_declared_witness :
  exists d,
    makeBrowserPlatform "3.0.0" node18 VUndefined = Ret d
    /\ field "httpRequest" d = Some (PFun HttpRequestFetch).
Proof.
  exact (http_strategy_where_global_declared "3.0.0" node18 VUndefined VUndefined
           fetch_function eq_refl eq_refl eq_refl eq_refl).
Defined.

(** Where the host does not declare [global] (a plain browser page, a
    service worker), [makeBrowserPlatform] throws a ReferenceError before it
    installs anything, whatever the options and whatever the global object
    has. *)
Theorem makeBrowserPlatform_needs_global (VERSION : string) (h : host) (options : value) :
  declares_global h = false ->
  declares_self h || declares_window h = true ->
  makeBrowserPlatform VERSION h options = Throw (ReferenceError "global").
Proof.
  intros Hg Hsw. unfold makeBrowserPlatform, GLOBAL, install_httpRequest, global_ident.
  rewrite Hg.
  destruct (declares_self h); [reflexivity|].
  destruct (declares_window h); [reflexivity | discriminate Hsw].
Qed.

Lemma makeBrowserPlatform_needs_global_witness :
  makeBrowserPlatform "3.0.0"
    (host_of true false false false [("fetch", Ret fetch_function)]) VUndefined =
  Throw (ReferenceError "global").
Proof.
  exact (makeBrowserPlatform_needs_global "3.0.0"
           (host_of true false false false [("fetch", Ret fetch_function)]) VUndefined
           eq_refl eq_refl).
Defined.

(** ** [httpAllowsPost] on a host with neither API *)

(** C10, as stated, fails once an earlier call has filled the cell: after a
    call on node.js 18 (which has [fetch]), the call on a host with neither
    API answers [true], not [undefined]. *)
Lemma absent_answers_memoized_value :
  ~ absent_answers_undefined [node18] bare_node.
Proof.
  intros H. specialize (H eq_refl). vm_compute in H. discriminate H.
Qed.

(** C10, as the code has it: if neither [XMLHttpRequest] nor [fetch] is
    present when [httpAllowsPost] is called and no earlier call has filled
    the cell, it answers [undefined] and leaves the cell unfilled, so that
    the next call probes its host again. *)
Theorem httpAllowsPost_unfilled_answers_undefined (h next : host) (st : store) :
  hasCors st = VUndefined ->
  neither_present h = true ->
  httpAllowsPost h st = (Ret VUndefined, st)
  /\ hasCors (snd (httpAllowsPost h st)) = VUndefined
  /\ httpAllowsPost next (snd (httpAllowsPost h st)) =
     match probe_cors next with
     | Ret (Some v) => (Ret v, set_hasCors v st)
     | Ret None => (Ret VUndefined, st)
     | Throw e => (Throw e, st)
     end.
Proof.
  intros Hc Hn.
  rewrite (httpAllowsPost_unfilled h st Hc Hn). simpl.
  split; [reflexivity|]. split; [exact Hc|].
  unfold httpAllowsPost. rewrite Hc. simpl.
  now destruct (probe_cors next) as [[v|]|e].
Qed.

Lemma httpAllowsPost_unfilled_answers_undefined_witness :
  httpAllowsPost bare_node initial_store = (Ret VUndefined, initial_store)
  /\ httpAllowsPost node18 (snd (httpAllowsPost bare_node initial_store)) =
     (Ret (VBool true), set_hasCors (VBool true) initial_store).
Proof.
  destruct (httpAllowsPost_unfilled_answers_undefined bare_node node18 initial_store
              eq_refl eq_refl) as [H1 [_ H3]].
  split; [exact H1 | exact H3].
Defined.

(** ** Storage whose access throws *)




